(** * ddns-go: startup and lifecycle orchestration ([main.go])

    A shallow embedding of [main], [runWebServer] and [autoOpenExplorer].
    The three functions are straight-line code over calls into the Go
    standard library and the packages [config], [dns], [util] and [web].
    Every such call is recorded as an [event]; what the call answers is
    read from a [World].  A thread of control is a computation in the
    monad [M]: the events it performed, in program order, and how it ended. *)

From Stdlib Require Import ZArith List String Bool Lia.
From Stdlib Require Import DecimalString.
From Stdlib Require DecimalZ DecimalPos.
Import ListNotations.
Open Scope string_scope.
Open Scope list_scope.
Open Scope Z_scope.

(** ** Data *)

(** Go's [error] interface, observed through its [Error()] method. *)
Record error : Type := errors_New { Error : string }.

(** [*net.TCPAddr], observed through what [autoOpenExplorer] reads of it:
    the field [Port], [IP.IsGlobalUnicast()] and [String()]. *)
Record TCPAddr : Type := {
  Port : Z;
  IP_IsGlobalUnicast : bool;
  TCPAddr_String : string
}.

(** [net.Listener], as returned by [net.Listen network address]. *)
Inductive Listener : Type := mkListener (network address : string).

(** [config.Config]; [main.go] reads the field [Lang] only. *)
Record Config : Type := { Lang : string }.

(** The names of the environment variables [main] writes.  They are string
    constants declared in the packages [web] and [util]. *)
Inductive envKey : Type := VersionEnv | ConfigFilePathENV | IPCacheTimesENV.

Definition envKey_eqb (a b : envKey) : bool :=
  match a, b with
  | VersionEnv, VersionEnv
  | ConfigFilePathENV, ConfigFilePathENV
  | IPCacheTimesENV, IPCacheTimesENV => true
  | _, _ => false
  end.

(** The handlers of the route table and the two authentication wrappers. *)
Inductive handlerFunc : Type :=
| staticFsFunc | faviconFsFunc
| web_Login | web_LoginFunc
| web_Writing | web_Save | web_Logs | web_ClearLog | web_WebhookTest | web_Logout.

Inductive route : Type :=
| web_AuthAssert (h : handlerFunc)
| web_Auth (h : handlerFunc).

(** The command-line flags, after [flag.Parse()] has returned. *)
Record Flags : Type := {
  versionFlag : bool;
  listen : string;
  every : Z;
  ipCacheTimes : Z;
  configFilePath : string;
  noWebService : bool;
  skipVerify : bool;
  customDNS : string;
  newPassword : string
}.

(** The declared defaults; [configDefault] is what
    [util.GetConfigFilePathDefault()] returned when the package was
    initialised. *)
Definition defaultFlags (configDefault : string) : Flags := {|
  versionFlag := false;
  listen := ":9876";
  every := 300;
  ipCacheTimes := 5;
  configFilePath := configDefault;
  noWebService := false;
  skipVerify := false;
  customDNS := "";
  newPassword := ""
|}.

Definition version : string := "DEV".

(** ** Integers and durations *)

(** [time.Duration] is an [int64] count of nanoseconds. *)
Definition int64_wrap (z : Z) : Z := (z + 2 ^ 63) mod 2 ^ 64 - 2 ^ 63.

Definition time_Duration (n : Z) : Z := int64_wrap n.
Definition Duration_mul (a b : Z) : Z := int64_wrap (a * b).

Definition time_Nanosecond : Z := 1.
Definition time_Second : Z := 1000000000 * time_Nanosecond.
Definition time_Minute : Z := 60 * time_Second.

(** [strconv.Itoa]. *)
Definition strconv_Itoa (n : Z) : string := NilZero.string_of_int (Z.to_int n).

(** [fmt.Sprintf] at the two formats of [autoOpenExplorer]. *)
Definition Sprintf_d (pre : string) (n : Z) : string :=
  String.append pre (strconv_Itoa n).
Definition Sprintf_s (pre : string) (s : string) : string :=
  String.append pre s.

(** ** Events and the world *)

Inductive event : Type :=
| fmt_Println_ev (s : string)
| util_FixTimezone_ev
| net_ResolveTCPAddr_ev (network address : string)
| log_Fatalf_ev (format : string) (args : list string)
| os_Setenv_ev (key : envKey) (value : string)
| filepath_Abs_ev (path : string)
| config_GetConfigCached_ev
| conf_ResetPassword_ev (conf : Config) (password : string)
| util_Log_ev (format : string) (args : list string)
| util_LogStr_ev (format : string) (args : list string)
| util_SetInsecureSkipVerify_ev
| util_SetDNS_ev (server : string)
| conf_CompatibleConfig_ev (conf : Config)
| util_InitLogLang_ev (lang : string)
| go_webServer_ev
| util_InitBackupDNS_ev (server lang : string)
| util_WaitInternet_ev (addresses : list string)
| dns_RunTimer_ev (delay : Z)
| http_HandleFunc_ev (pattern : string) (handler : route)
| net_Listen_ev (network address : string)
| http_Serve_ev (l : Listener)
| log_Println_ev (s : string)
| time_Sleep_ev (d : Z)
| os_Exit_ev (code : Z)
| util_IsRunInDocker_ev
| go_util_OpenExplorer_ev (url : string).

(** What the environment answers.  A thread asks each question at most
    once, so the answers do not depend on the history. *)
Record World : Type := {
  runtime_GOOS : string;
  net_ResolveTCPAddr_ans : string -> string -> TCPAddr + error;
  filepath_Abs_ans : string -> string * option error;
  config_GetConfigCached_ans : Config * option error;
  conf_CompatibleConfig_ans : Config -> Config;
  util_LogStr_ans : string -> list string -> string;
  util_IsRunInDocker_ans : bool;
  dns_Addresses : list string;
  (** does [util.WaitInternet] return, or wait for ever *)
  util_WaitInternet_returns : bool;
  net_Listen_ans : string -> string -> Listener + error;
  (** [http.Serve] returns a non-nil error, or serves for ever ([None]) *)
  http_Serve_ans : Listener -> option error
}.

(** ** The monad of a thread of control *)

Inductive outcome (A : Type) : Type :=
| Done (a : A)        (* the function returned [a] *)
| Exit (code : Z)     (* the process was terminated with this status *)
| Hang.               (* the thread is inside a call that never returns *)
Arguments Done {A} a.
Arguments Exit {A} code.
Arguments Hang {A}.

Definition M (A : Type) : Type := (list event * outcome A)%type.

Definition ret {A} (a : A) : M A := ([], Done a).

Definition bind {A B} (m : M A) (k : A -> M B) : M B :=
  match m with
  | (t, Done a) => let '(t', o) := k a in (t ++ t', o)
  | (t, Exit c) => (t, Exit c)
  | (t, Hang) => (t, Hang)
  end.

Declare Scope go_scope.
Delimit Scope go_scope with go.
Notation "x <- m ;; k" := (bind m (fun x => k))
  (at level 100, m at next level, right associativity) : go_scope.
Notation "m ;; k" := (bind m (fun _ => k))
  (at level 100, right associativity) : go_scope.
Open Scope go_scope.

Definition call {A} (e : event) (a : A) : M A := ([e], Done a).

(** Go's [if b { m }] with no [else]. *)
Definition when (b : bool) (m : M unit) : M unit := if b then m else ret tt.

Definition trace {A} (m : M A) : list event := fst m.
Definition result {A} (m : M A) : outcome A := snd m.

(** ** The program *)

Section Program.
Variable w : World.
Variable f : Flags.

(** *** The calls, one definition per callee

    A call into the standard library or into [config], [util], [web] and
    [dns] returns to its caller, with the answer of the world, unless its
    definition says otherwise. *)

Definition fmt_Println (s : string) : M unit := call (fmt_Println_ev s) tt.
Definition util_FixTimezone : M unit := call util_FixTimezone_ev tt.
Definition net_ResolveTCPAddr (network address : string) : M (TCPAddr + error) :=
  call (net_ResolveTCPAddr_ev network address)
       (net_ResolveTCPAddr_ans w network address).
(** [log.Fatalf] prints and then calls [os.Exit(1)]. *)
Definition log_Fatalf {A} (format : string) (args : list string) : M A :=
  ([log_Fatalf_ev format args], Exit 1).
Definition os_Setenv (key : envKey) (value : string) : M unit :=
  call (os_Setenv_ev key value) tt.
Definition filepath_Abs (path : string) : M (string * option error) :=
  call (filepath_Abs_ev path) (filepath_Abs_ans w path).
Definition config_GetConfigCached : M (Config * option error) :=
  call config_GetConfigCached_ev (config_GetConfigCached_ans w).
Definition conf_ResetPassword (conf : Config) (password : string) : M unit :=
  call (conf_ResetPassword_ev conf password) tt.
Definition util_Log (format : string) (args : list string) : M unit :=
  call (util_Log_ev format args) tt.
Definition util_LogStr (format : string) (args : list string) : M string :=
  call (util_LogStr_ev format args) (util_LogStr_ans w format args).
Definition util_SetInsecureSkipVerify : M unit :=
  call util_SetInsecureSkipVerify_ev tt.
Definition util_SetDNS (server : string) : M unit := call (util_SetDNS_ev server) tt.
Definition conf_CompatibleConfig (conf : Config) : M Config :=
  call (conf_CompatibleConfig_ev conf) (conf_CompatibleConfig_ans w conf).
Definition util_InitLogLang (lang : string) : M unit :=
  call (util_InitLogLang_ev lang) tt.
(** The [go func() { ... }()] of [main]; its body is [webGoroutine]. *)
Definition go_webServer : M unit := call go_webServer_ev tt.
Definition util_InitBackupDNS (server lang : string) : M unit :=
  call (util_InitBackupDNS_ev server lang) tt.
(** Modelled from the spec: [util.WaitInternet] is not in [main.go]; the
    connectivity gate blocks until one of the addresses is reachable and
    has no timeout, so it returns or waits for ever, as the world has it. *)
Definition util_WaitInternet (addresses : list string) : M unit :=
  ([util_WaitInternet_ev addresses],
   if util_WaitInternet_returns w then Done tt else Hang).
(** Modelled from the spec: [dns.RunTimer] is not in [main.go]; the
    update loop runs a cycle at once, repeats on the fixed period and
    never returns. *)
Definition dns_RunTimer {A} (delay : Z) : M A := ([dns_RunTimer_ev delay], Hang).
Definition http_HandleFunc (pattern : string) (handler : route) : M unit :=
  call (http_HandleFunc_ev pattern handler) tt.
Definition net_Listen (network address : string) : M (Listener + error) :=
  call (net_Listen_ev network address) (net_Listen_ans w network address).
Definition http_Serve (l : Listener) : M (option error) :=
  ([http_Serve_ev l],
   match http_Serve_ans w l with
   | Some err => Done (Some err)
   | None => Hang
   end).
Definition log_Println (s : string) : M unit := call (log_Println_ev s) tt.
Definition time_Sleep (d : Z) : M unit := call (time_Sleep_ev d) tt.
Definition os_Exit {A} (code : Z) : M A := ([os_Exit_ev code], Exit code).
Definition util_IsRunInDocker : M bool :=
  call util_IsRunInDocker_ev (util_IsRunInDocker_ans w).
(** [go util.OpenExplorer(url)]: the browser is opened on a goroutine of
    its own. *)
Definition go_util_OpenExplorer (url : string) : M unit :=
  call (go_util_OpenExplorer_ev url) tt.

(** *** [autoOpenExplorer] *)

Definition autoOpenExplorer : M unit :=
  c <- config_GetConfigCached ;;
  match snd c with
  | Some _ =>
      docker <- util_IsRunInDocker ;;
      if docker then
        util_Log "Docker中运行, 请在浏览器中打开 http://docker主机IP:9876 进行配置" []
      else
        r <- net_ResolveTCPAddr "tcp" (listen f) ;;
        match r with
        | inr _ => ret tt
        | inl addr =>
            let url := Sprintf_d "http://127.0.0.1:" (Port addr) in
            let url := if IP_IsGlobalUnicast addr
                       then Sprintf_s "http://" (TCPAddr_String addr)
                       else url in
            go_util_OpenExplorer url
        end
  | None => ret tt
  end.

(** *** [runWebServer] *)

Definition runWebServer : M (option error) :=
  http_HandleFunc "/static/" (web_AuthAssert staticFsFunc) ;;
  http_HandleFunc "/favicon.ico" (web_AuthAssert faviconFsFunc) ;;
  http_HandleFunc "/login" (web_AuthAssert web_Login) ;;
  http_HandleFunc "/loginFunc" (web_AuthAssert web_LoginFunc) ;;
  http_HandleFunc "/" (web_Auth web_Writing) ;;
  http_HandleFunc "/save" (web_Auth web_Save) ;;
  http_HandleFunc "/logs" (web_Auth web_Logs) ;;
  http_HandleFunc "/clearLog" (web_Auth web_ClearLog) ;;
  http_HandleFunc "/webhookTest" (web_Auth web_WebhookTest) ;;
  http_HandleFunc "/logout" (web_Auth web_Logout) ;;
  util_Log "监听 %s" [listen f] ;;
  r <- net_Listen "tcp" (listen f) ;;
  match r with
  | inr err =>
      s <- util_LogStr "监听端口发生异常, 请检查端口是否被占用! %s" [Error err] ;;
      ret (Some (errors_New s))
  | inl l =>
      autoOpenExplorer ;;
      http_Serve l
  end.

(** The body of the goroutine forked by [main]. *)
Definition webGoroutine : M unit :=
  err <- runWebServer ;;
  match err with
  | Some e =>
      log_Println (Error e) ;;
      time_Sleep time_Minute ;;
      os_Exit 1
  | None => ret tt
  end.

(** *** [main] *)

Definition main : M unit :=
  if versionFlag f then
    fmt_Println version
  else
    when (runtime_GOOS w =? "android")%string util_FixTimezone ;;
    r <- net_ResolveTCPAddr "tcp" (listen f) ;;
    match r with
    | inr err => log_Fatalf "Parse listen address failed! Exception: %s" [Error err]
    | inl _ => ret tt
    end ;;
    os_Setenv VersionEnv version ;;
    when (negb (configFilePath f =? "")%string)
      (absPath <- filepath_Abs (configFilePath f) ;;
       os_Setenv ConfigFilePathENV (fst absPath)) ;;
    if negb (newPassword f =? "")%string then
      c <- config_GetConfigCached ;;
      match snd c with
      | None => conf_ResetPassword (fst c) (newPassword f)
      | Some _ =>
          util_Log "配置文件 %s 不存在, 可通过-c指定配置文件" [configFilePath f]
      end
    else
      when (skipVerify f) util_SetInsecureSkipVerify ;;
      when (negb (customDNS f =? "")%string) (util_SetDNS (customDNS f)) ;;
      os_Setenv IPCacheTimesENV (strconv_Itoa (ipCacheTimes f)) ;;
      c <- config_GetConfigCached ;;
      conf <- conf_CompatibleConfig (fst c) ;;
      util_InitLogLang (Lang conf) ;;
      when (negb (noWebService f)) go_webServer ;;
      util_InitBackupDNS (customDNS f) (Lang conf) ;;
      util_WaitInternet (dns_Addresses w) ;;
      dns_RunTimer (Duration_mul (time_Duration (every f)) time_Second).

End Program.

(** ** The process

    [main] runs on the main goroutine.  The goroutine of the web service
    exists when [main] reached its [go] statement; it then runs
    [webGoroutine] against answers of its own ([ww]), since it asks the
    environment at other times than [main] does. *)

Definition is_go_webServer (e : event) : bool :=
  match e with go_webServer_ev => true | _ => false end.

Record Process : Type := {
  main_thread : M unit;
  web_thread : option (M unit)
}.

Definition process (wm ww : World) (f : Flags) : Process :=
  let m := main wm f in
  {| main_thread := m;
     web_thread := if existsb is_go_webServer (trace m)
                   then Some (webGoroutine ww f) else None |}.

(** Every event a thread of the process can perform. *)
Definition events (p : Process) : list event :=
  trace (main_thread p) ++
  match web_thread p with Some t => trace t | None => [] end.

(** The exit status of the process, [None] while no thread ends it: a
    return of [main] ends the process with status 0, [os.Exit] on any
    goroutine ends it with the status given. *)
Definition exit_status (p : Process) : option Z :=
  match result (main_thread p) with
  | Done _ => Some 0
  | Exit c => Some c
  | Hang =>
      match web_thread p with
      | Some (_, Exit c) => Some c
      | _ => None
      end
  end.

(** ** Kinds of events *)

Definition opens_socket (e : event) : bool :=
  match e with net_Listen_ev _ _ | http_Serve_ev _ => true | _ => false end.

Definition registers_route (e : event) : bool :=
  match e with http_HandleFunc_ev _ _ => true | _ => false end.

Definition loads_config (e : event) : bool :=
  match e with config_GetConfigCached_ev => true | _ => false end.

Definition writes_env (e : event) : bool :=
  match e with os_Setenv_ev _ _ => true | _ => false end.

Definition writes_env_key (k : envKey) (e : event) : bool :=
  match e with os_Setenv_ev k' _ => envKey_eqb k k' | _ => false end.

(** The connectivity gate. *)
Definition probes_network (e : event) : bool :=
  match e with util_WaitInternet_ev _ => true | _ => false end.

Definition mutates_password (e : event) : bool :=
  match e with conf_ResetPassword_ev _ _ => true | _ => false end.

Definition migrates_config (e : event) : bool :=
  match e with conf_CompatibleConfig_ev _ => true | _ => false end.

Definition runs_update_loop (e : event) : bool :=
  match e with dns_RunTimer_ev _ => true | _ => false end.

Definition exits_process (e : event) : bool :=
  match e with os_Exit_ev _ | log_Fatalf_ev _ _ => true | _ => false end.

(** The three process-wide settings applied after the reset-password
    branch of [main]. *)
Definition applies_global_setting (e : event) : bool :=
  match e with
  | util_SetInsecureSkipVerify_ev | util_SetDNS_ev _ => true
  | os_Setenv_ev IPCacheTimesENV _ => true
  | _ => false
  end.

(** Operations on the file system, the network or a socket. *)
Definition filesystem_op (e : event) : bool :=
  match e with
  | filepath_Abs_ev _ | config_GetConfigCached_ev
  | conf_ResetPassword_ev _ _ | conf_CompatibleConfig_ev _ => true
  | _ => false
  end.

Definition network_op (e : event) : bool :=
  match e with
  | net_ResolveTCPAddr_ev _ _ | util_InitBackupDNS_ev _ _
  | util_WaitInternet_ev _ | dns_RunTimer_ev _ | util_SetDNS_ev _ => true
  | _ => false
  end.

(** How many events of a kind a trace holds. *)
Definition count (p : event -> bool) (t : list event) : nat :=
  List.length (filter p t).

(** No event of the kind. *)
Definition never (p : event -> bool) (t : list event) : Prop :=
  Forall (fun e => p e = false) t.

(** Every [q]-event of the trace comes after some [p]-event. *)
Definition only_after (p q : event -> bool) (t : list event) : Prop :=
  forall pre e post, t = pre ++ e :: post -> q e = true -> existsb p pre = true.

Fixpoint only_afterb (seen : bool) (p q : event -> bool) (t : list event) : bool :=
  match t with
  | [] => true
  | e :: t' => (if q e then seen else true) && only_afterb (seen || p e) p q t'
  end.

(** ** Traces of the phases of [main]

    The events of [main] up to the end of the address validation, and up to
    the reset-password test, as the flags and the world determine them. *)

Definition validation_events (w : World) (f : Flags) : list event :=
  (if (runtime_GOOS w =? "android")%string then [util_FixTimezone_ev] else []) ++
  [net_ResolveTCPAddr_ev "tcp" (listen f)].

Definition signal_events (w : World) (f : Flags) : list event :=
  [os_Setenv_ev VersionEnv version] ++
  (if (configFilePath f =? "")%string then []
   else [filepath_Abs_ev (configFilePath f);
         os_Setenv_ev ConfigFilePathENV (fst (filepath_Abs_ans w (configFilePath f)))]).

Definition switch_events (f : Flags) : list event :=
  (if skipVerify f then [util_SetInsecureSkipVerify_ev] else []) ++
  (if (customDNS f =? "")%string then [] else [util_SetDNS_ev (customDNS f)]) ++
  [os_Setenv_ev IPCacheTimesENV (strconv_Itoa (ipCacheTimes f))].

(** The configuration value [main] goes on with: what
    [config.GetConfigCached] returned, after [CompatibleConfig]. *)
Definition migrated_config (w : World) : Config :=
  conf_CompatibleConfig_ans w (fst (config_GetConfigCached_ans w)).

Definition service_events (w : World) (f : Flags) : list event :=
  [config_GetConfigCached_ev;
   conf_CompatibleConfig_ev (fst (config_GetConfigCached_ans w));
   util_InitLogLang_ev (Lang (migrated_config w))] ++
  (if noWebService f then [] else [go_webServer_ev]) ++
  [util_InitBackupDNS_ev (customDNS f) (Lang (migrated_config w));
   util_WaitInternet_ev (dns_Addresses w)] ++
  (if util_WaitInternet_returns w
   then [dns_RunTimer_ev (Duration_mul (time_Duration (every f)) time_Second)]
   else []).

(** The ten routes, in the order [runWebServer] registers them. *)
Definition route_events : list event :=
  [http_HandleFunc_ev "/static/" (web_AuthAssert staticFsFunc);
   http_HandleFunc_ev "/favicon.ico" (web_AuthAssert faviconFsFunc);
   http_HandleFunc_ev "/login" (web_AuthAssert web_Login);
   http_HandleFunc_ev "/loginFunc" (web_AuthAssert web_LoginFunc);
   http_HandleFunc_ev "/" (web_Auth web_Writing);
   http_HandleFunc_ev "/save" (web_Auth web_Save);
   http_HandleFunc_ev "/logs" (web_Auth web_Logs);
   http_HandleFunc_ev "/clearLog" (web_Auth web_ClearLog);
   http_HandleFunc_ev "/webhookTest" (web_Auth web_WebhookTest);
   http_HandleFunc_ev "/logout" (web_Auth web_Logout)].

(** The events of [runWebServer] up to and including [net.Listen]. *)
Definition listen_events (f : Flags) : list event :=
  route_events ++ [util_Log_ev "监听 %s" [listen f]; net_Listen_ev "tcp" (listen f)].

(** ** Sample worlds and flags *)

Definition addr9876 : TCPAddr :=
  {| Port := 9876; IP_IsGlobalUnicast := false; TCPAddr_String := ":9876" |}.

(** A Linux host on which [":9876"] resolves and any other address is
    rejected; [cached] is what [config.GetConfigCached] answers, [listenErr]
    the error of [net.Listen] if it fails, [serveErr] the error of
    [http.Serve] if it returns. *)
Definition sampleWorld (cached : Config * option error)
    (listenErr serveErr : option error) : World := {|
  runtime_GOOS := "linux";
  net_ResolveTCPAddr_ans := fun _ address =>
    if (address =? ":9876")%string then inl addr9876
    else inr (errors_New "missing port in address");
  filepath_Abs_ans := fun p => (p, None);
  config_GetConfigCached_ans := cached;
  conf_CompatibleConfig_ans := fun c => c;
  util_LogStr_ans := fun format args => String.concat " " (format :: args);
  util_IsRunInDocker_ans := false;
  dns_Addresses := ["223.5.5.5"];
  util_WaitInternet_returns := true;
  net_Listen_ans := fun network address =>
    match listenErr with
    | Some e => inr e
    | None => inl (mkListener network address)
    end;
  http_Serve_ans := fun _ => serveErr
|}.

Definition configFound : Config * option error := ({| Lang := "zh" |}, None).
Definition configMissing : Config * option error :=
  ({| Lang := "" |}, Some (errors_New "config file not found")).

Definition homeWorld : World := sampleWorld configFound None None.
Definition freshWorld : World := sampleWorld configMissing None None.
Definition busyPortWorld : World :=
  sampleWorld configFound (Some (errors_New "bind: address already in use")) None.

Definition sampleFlags : Flags := defaultFlags "/root/.ddns_go_config.yaml".

Definition with_versionFlag (b : bool) (f : Flags) : Flags := {|
  versionFlag := b; listen := listen f; every := every f;
  ipCacheTimes := ipCacheTimes f; configFilePath := configFilePath f;
  noWebService := noWebService f; skipVerify := skipVerify f;
  customDNS := customDNS f; newPassword := newPassword f |}.

Definition with_listen (s : string) (f : Flags) : Flags := {|
  versionFlag := versionFlag f; listen := s; every := every f;
  ipCacheTimes := ipCacheTimes f; configFilePath := configFilePath f;
  noWebService := noWebService f; skipVerify := skipVerify f;
  customDNS := customDNS f; newPassword := newPassword f |}.


Definition with_noWebService (b : bool) (f : Flags) : Flags := {|
  versionFlag := versionFlag f; listen := listen f; every := every f;
  ipCacheTimes := ipCacheTimes f; configFilePath := configFilePath f;
  noWebService := b; skipVerify := skipVerify f;
  customDNS := customDNS f; newPassword := newPassword f |}.

Definition with_newPassword (s : string) (f : Flags) : Flags := {|
  versionFlag := versionFlag f; listen := listen f; every := every f;
  ipCacheTimes := ipCacheTimes f; configFilePath := configFilePath f;
  noWebService := noWebService f; skipVerify := skipVerify f;
  customDNS := customDNS f; newPassword := s |}.


(** ** Properties of a run *)

(** The process stops in the fatal log of the address validation, having
    called nothing after [net.ResolveTCPAddr]. *)
Definition halts_at_validation (w : World) (f : Flags) : Prop :=
  exists err,
    main w f =
      (validation_events w f ++
       [log_Fatalf_ev "Parse listen address failed! Exception: %s" [Error err]],
       Exit 1).

(** No socket, no configuration load, no environment signal, no
    connectivity probe. *)
Definition no_startup_effect (t : list event) : Prop :=
  never opens_socket t /\ never loads_config t /\
  never writes_env t /\ never probes_network t.

(** Going on with the startup: migration, the fork of the web service,
    the update loop. *)
Definition continues_startup (e : event) : bool :=
  migrates_config e || is_go_webServer e || runs_update_loop e.

(** A failed load of the cached configuration, outside the reset-password
    mode, ends the run. *)
Definition load_failure_is_terminal (w : World) (f : Flags) : Prop :=
  newPassword f = "" ->
  snd (config_GetConfigCached_ans w) <> None ->
  never continues_startup (trace (main w f)).

(** The world [w] with another answer of [config.GetConfigCached]. *)
Definition with_cached (c : Config * option error) (w : World) : World := {|
  runtime_GOOS := runtime_GOOS w;
  net_ResolveTCPAddr_ans := net_ResolveTCPAddr_ans w;
  filepath_Abs_ans := filepath_Abs_ans w;
  config_GetConfigCached_ans := c;
  conf_CompatibleConfig_ans := conf_CompatibleConfig_ans w;
  util_LogStr_ans := util_LogStr_ans w;
  util_IsRunInDocker_ans := util_IsRunInDocker_ans w;
  dns_Addresses := dns_Addresses w;
  util_WaitInternet_returns := util_WaitInternet_returns w;
  net_Listen_ans := net_Listen_ans w;
  http_Serve_ans := http_Serve_ans w
|}.

(** Exactly one password mutation and a successful exit, with no web
    service and no update loop. *)
Definition resets_password_once (wm ww : World) (f : Flags) : Prop :=
  count mutates_password (events (process wm ww f)) = 1%nat /\
  exit_status (process wm ww f) = Some 0 /\
  web_thread (process wm ww f) = None /\
  never is_go_webServer (events (process wm ww f)) /\
  never runs_update_loop (events (process wm ww f)).

(** The diagnostic of the reset-password mode when no configuration is
    found. *)
Definition reset_diagnostic (f : Flags) : event :=
  util_Log_ev "配置文件 %s 不存在, 可通过-c指定配置文件" [configFilePath f].

Definition logs_diagnostic_and_exits (wm ww : World) (f : Flags) : Prop :=
  In (reset_diagnostic f) (events (process wm ww f)) /\
  exit_status (process wm ww f) = Some 0.

(** ** Process-wide settings *)

(** The certificate switch, the DNS override and the environment. *)
Record Globals : Type := {
  insecureSkipVerify : bool;
  customResolver : option string;
  environ : envKey -> option string
}.

(** Modelled from the spec: [util.SetInsecureSkipVerify] and [util.SetDNS]
    are not in [main.go]; the spec has them as process-wide one-time
    switches.  [os.Setenv] writes the environment of the process.  No other
    call of [main.go] is taken to touch these settings. *)
Definition apply_event (g : Globals) (e : event) : Globals :=
  match e with
  | util_SetInsecureSkipVerify_ev =>
      {| insecureSkipVerify := true;
         customResolver := customResolver g;
         environ := environ g |}
  | util_SetDNS_ev server =>
      {| insecureSkipVerify := insecureSkipVerify g;
         customResolver := Some server;
         environ := environ g |}
  | os_Setenv_ev key value =>
      {| insecureSkipVerify := insecureSkipVerify g;
         customResolver := customResolver g;
         environ := fun k => if envKey_eqb key k then Some value else environ g k |}
  | _ => g
  end.

Definition globals_after (t : list event) (g : Globals) : Globals :=
  fold_left apply_event t g.

(** The three settings that [main] applies after the reset-password
    branch are the same in [g] and [g']. *)
Definition same_late_settings (g g' : Globals) : Prop :=
  insecureSkipVerify g' = insecureSkipVerify g /\
  customResolver g' = customResolver g /\
  environ g' IPCacheTimesENV = environ g IPCacheTimesENV.

Definition initialGlobals : Globals := {|
  insecureSkipVerify := false;
  customResolver := None;
  environ := fun _ => None
|}.

(** [-resetPassword secret -skipVerify -dns 8.8.8.8 -cacheTimes 9]. *)
Definition resetWithSwitches : Flags := {|
  versionFlag := false;
  listen := ":9876";
  every := 300;
  ipCacheTimes := 9;
  configFilePath := "/root/.ddns_go_config.yaml";
  noWebService := false;
  skipVerify := true;
  customDNS := "8.8.8.8";
  newPassword := "secret"
|}.

(** ** Ordering of the startup *)




(** ** Failure of the web service *)

Definition web_service_fails (w : World) (f : Flags) : Prop :=
  (exists err, net_Listen_ans w "tcp" (listen f) = inr err) \/
  (exists l err, net_Listen_ans w "tcp" (listen f) = inl l /\
                 http_Serve_ans w l = Some err).

(** The three calls of the goroutine on an error of [runWebServer]. *)
Definition supervision_events (err : error) : list event :=
  [log_Println_ev (Error err); time_Sleep_ev time_Minute; os_Exit_ev 1].

(** ** The convenience action *)

(** The URL [autoOpenExplorer] opens for the resolved listen address. *)
Definition browser_url (addr : TCPAddr) : string :=
  if IP_IsGlobalUnicast addr
  then Sprintf_s "http://" (TCPAddr_String addr)
  else Sprintf_d "http://127.0.0.1:" (Port addr).

Definition docker_hint : event :=
  util_Log_ev "Docker中运行, 请在浏览器中打开 http://docker主机IP:9876 进行配置" [].

(** What [autoOpenExplorer] does once it knows that no configuration
    exists. *)
Definition convenience_events (w : World) (f : Flags) : list event :=
  util_IsRunInDocker_ev ::
  if util_IsRunInDocker_ans w then [docker_hint]
  else net_ResolveTCPAddr_ev "tcp" (listen f) ::
       match net_ResolveTCPAddr_ans w "tcp" (listen f) with
       | inl addr => [go_util_OpenExplorer_ev (browser_url addr)]
       | inr _ => []
       end.

(** ** Further kinds of events and properties of traces *)

Definition binds_socket (e : event) : bool :=
  match e with net_Listen_ev _ _ => true | _ => false end.

Definition serves_http (e : event) : bool :=
  match e with http_Serve_ev _ => true | _ => false end.

Definition opens_browser (e : event) : bool :=
  match e with go_util_OpenExplorer_ev _ => true | _ => false end.


Definition sets_skip_verify (e : event) : bool :=
  match e with util_SetInsecureSkipVerify_ev => true | _ => false end.

Definition sets_dns (e : event) : bool :=
  match e with util_SetDNS_ev _ => true | _ => false end.

(** The calls on the configuration value: password reset and migration. *)
Definition uses_config (e : event) : bool :=
  mutates_password e || migrates_config e.

(** The calls that go to the network with the process-wide settings: the
    fork of the web service, the backup DNS, the connectivity gate and the
    update loop. *)
Definition goes_online (e : event) : bool :=
  match e with
  | go_webServer_ev | util_InitBackupDNS_ev _ _
  | util_WaitInternet_ev _ | dns_RunTimer_ev _ => true
  | _ => false
  end.

(** The patterns of the routes a trace registers, in order. *)
Fixpoint registered_patterns (t : list event) : list string :=
  match t with
  | [] => []
  | http_HandleFunc_ev pattern _ :: t' => pattern :: registered_patterns t'
  | _ :: t' => registered_patterns t'
  end.

(** The patterns a trace registers behind [web.AuthAssert], the wrapper of
    the pages that need no session. *)
Fixpoint open_patterns (t : list event) : list string :=
  match t with
  | [] => []
  | http_HandleFunc_ev pattern (web_AuthAssert _) :: t' => pattern :: open_patterns t'
  | _ :: t' => open_patterns t'
  end.

(** No [p]-event comes after a [q]-event. *)
Definition never_after (p q : event -> bool) (t : list event) : Prop :=
  forall pre e post, t = pre ++ e :: post -> q e = true -> never p post.

Fixpoint never_afterb (p q : event -> bool) (t : list event) : bool :=
  match t with
  | [] => true
  | e :: t' => (if q e then negb (existsb p t') else true) && never_afterb p q t'
  end.

(** ** The run as the flags and the world decide it *)

Definition resolves (w : World) (f : Flags) : bool :=
  match net_ResolveTCPAddr_ans w "tcp" (listen f) with
  | inl _ => true
  | inr _ => false
  end.

(** [main] gets to its service mode. *)
Definition serves (w : World) (f : Flags) : bool :=
  negb (versionFlag f) && resolves w f && (newPassword f =? "")%string.

(** [main] gets to its [go] statement. *)
Definition starts_web (w : World) (f : Flags) : bool :=
  serves w f && negb (noWebService f).

(** The bind fails, or [http.Serve] returns. *)
Definition web_fails (w : World) (f : Flags) : bool :=
  match net_Listen_ans w "tcp" (listen f) with
  | inr _ => true
  | inl l => match http_Serve_ans w l with Some _ => true | None => false end
  end.


(** [autoOpenExplorer] gets to its [go util.OpenExplorer]. *)
Definition wants_browser (w : World) (f : Flags) : bool :=
  match snd (config_GetConfigCached_ans w) with
  | None => false
  | Some _ => negb (util_IsRunInDocker_ans w) && resolves w f
  end.

(** The environment signals written before the configuration is loaded. *)
Definition path_signals (f : Flags) : list envKey :=
  [VersionEnv] ++
  (if (configFilePath f =? "")%string then [] else [ConfigFilePathENV]).

(** The world [w] with another answer of [filepath.Abs]. *)
Definition with_filepath_Abs (g : string -> string * option error) (w : World)
  : World := {|
  runtime_GOOS := runtime_GOOS w;
  net_ResolveTCPAddr_ans := net_ResolveTCPAddr_ans w;
  filepath_Abs_ans := g;
  config_GetConfigCached_ans := config_GetConfigCached_ans w;
  conf_CompatibleConfig_ans := conf_CompatibleConfig_ans w;
  util_LogStr_ans := util_LogStr_ans w;
  util_IsRunInDocker_ans := util_IsRunInDocker_ans w;
  dns_Addresses := dns_Addresses w;
  util_WaitInternet_returns := util_WaitInternet_returns w;
  net_Listen_ans := net_Listen_ans w;
  http_Serve_ans := http_Serve_ans w
|}.

(** The process-wide settings that the bootstrap of the service mode
    leaves behind, from the settings [g] it found. *)
Definition bootstrap_globals (w : World) (f : Flags) (g : Globals) : Globals := {|
  insecureSkipVerify := skipVerify f || insecureSkipVerify g;
  customResolver :=
    if (customDNS f =? "")%string then customResolver g else Some (customDNS f);
  environ := fun k =>
    match k with
    | VersionEnv => Some version
    | ConfigFilePathENV =>
        if (configFilePath f =? "")%string then environ g ConfigFilePathENV
        else Some (fst (filepath_Abs_ans w (configFilePath f)))
    | IPCacheTimesENV => Some (strconv_Itoa (ipCacheTimes f))
    end
|}.

(** A host on which the port is free and [http.Serve] returns after a
    while. *)
Definition closedWorld : World :=
  sampleWorld configFound None (Some (errors_New "use of closed network connection")).

(** An Android host. *)
Definition androidWorld : World := {|
  runtime_GOOS := "android";
  net_ResolveTCPAddr_ans := net_ResolveTCPAddr_ans homeWorld;
  filepath_Abs_ans := filepath_Abs_ans homeWorld;
  config_GetConfigCached_ans := config_GetConfigCached_ans homeWorld;
  conf_CompatibleConfig_ans := conf_CompatibleConfig_ans homeWorld;
  util_LogStr_ans := util_LogStr_ans homeWorld;
  util_IsRunInDocker_ans := util_IsRunInDocker_ans homeWorld;
  dns_Addresses := dns_Addresses homeWorld;
  util_WaitInternet_returns := util_WaitInternet_returns homeWorld;
  net_Listen_ans := net_Listen_ans homeWorld;
  http_Serve_ans := http_Serve_ans homeWorld
|}.

Definition with_every (n : Z) (f : Flags) : Flags := {|
  versionFlag := versionFlag f; listen := listen f; every := n;
  ipCacheTimes := ipCacheTimes f; configFilePath := configFilePath f;
  noWebService := noWebService f; skipVerify := skipVerify f;
  customDNS := customDNS f; newPassword := newPassword f |}.

Definition writes_log (e : event) : bool :=
  match e with util_Log_ev _ _ => true | _ => false end.

(** [autoOpenExplorer] gets to its Docker hint. *)
Definition wants_docker_hint (w : World) : bool :=
  match snd (config_GetConfigCached_ans w) with
  | None => false
  | Some _ => util_IsRunInDocker_ans w
  end.

(** A host inside a container, without a configuration file. *)
Definition dockerWorld : World := {|
  runtime_GOOS := "linux";
  net_ResolveTCPAddr_ans := net_ResolveTCPAddr_ans freshWorld;
  filepath_Abs_ans := filepath_Abs_ans freshWorld;
  config_GetConfigCached_ans := configMissing;
  conf_CompatibleConfig_ans := conf_CompatibleConfig_ans freshWorld;
  util_LogStr_ans := util_LogStr_ans freshWorld;
  util_IsRunInDocker_ans := true;
  dns_Addresses := dns_Addresses freshWorld;
  util_WaitInternet_returns := true;
  net_Listen_ans := net_Listen_ans freshWorld;
  http_Serve_ans := http_Serve_ans freshWorld
|}.

(** A host whose network is down: the connectivity gate never returns. *)
Definition offlineWorld : World := {|
  runtime_GOOS := "linux";
  net_ResolveTCPAddr_ans := net_ResolveTCPAddr_ans homeWorld;
  filepath_Abs_ans := filepath_Abs_ans homeWorld;
  config_GetConfigCached_ans := config_GetConfigCached_ans homeWorld;
  conf_CompatibleConfig_ans := conf_CompatibleConfig_ans homeWorld;
  util_LogStr_ans := util_LogStr_ans homeWorld;
  util_IsRunInDocker_ans := util_IsRunInDocker_ans homeWorld;
  dns_Addresses := dns_Addresses homeWorld;
  util_WaitInternet_returns := false;
  net_Listen_ans := net_Listen_ans homeWorld;
  http_Serve_ans := http_Serve_ans homeWorld
|}.

(** Some thread of the process is in the update loop. *)
Definition update_loop_runs (wm ww : World) (f : Flags) : Prop :=
  existsb runs_update_loop (events (process wm ww f)) = true.
(** ** General facts on traces *)

Lemma never_app (p : event -> bool) (t1 t2 : list event) :
  never p t1 -> never p t2 -> never p (t1 ++ t2).
Proof. unfold never. intros H1 H2. apply Forall_app. split; assumption. Qed.

Lemma never_count (p : event -> bool) (t : list event) :
  never p t -> count p t = 0%nat.
Proof.
  unfold never, count. induction 1 as [|e t He _ IH]; simpl.
  - reflexivity.
  - rewrite He. exact IH.
Qed.

Lemma count_app (p : event -> bool) (t1 t2 : list event) :
  count p (t1 ++ t2) = (count p t1 + count p t2)%nat.
Proof. unfold count. rewrite filter_app, length_app. reflexivity. Qed.

Lemma never_existsb (p : event -> bool) (t : list event) :
  never p t -> existsb p t = false.
Proof.
  unfold never. induction 1 as [|e t He _ IH]; simpl.
  - reflexivity.
  - rewrite He, IH. reflexivity.
Qed.

Lemma only_afterb_seen (p q : event -> bool) (t : list event) :
  forall seen, only_afterb seen p q t = true ->
  forall pre e post, t = pre ++ e :: post -> q e = true ->
  seen || existsb p pre = true.
Proof.
  induction t as [|x t IH]; intros seen Hb pre e post Heq Hq.
  - destruct pre; discriminate.
  - simpl in Hb. apply andb_true_iff in Hb. destruct Hb as [Hx Ht].
    destruct pre as [|y pre]; simpl in Heq; injection Heq as -> ->.
    + rewrite Hq in Hx. rewrite Hx. reflexivity.
    + specialize (IH _ Ht pre e post eq_refl Hq). simpl.
      rewrite orb_assoc. exact IH.
Qed.

Lemma only_afterb_sound (p q : event -> bool) (t : list event) :
  only_afterb false p q t = true -> only_after p q t.
Proof.
  intros Hb pre e post Heq Hq.
  exact (only_afterb_seen p q t false Hb pre e post Heq Hq).
Qed.

(** ** [main], mode by mode *)

Section MainModes.
Variable w : World.
Variable f : Flags.

Lemma main_version :
  versionFlag f = true ->
  main w f = ([fmt_Println_ev version], Done tt).
Proof. intros Hv. unfold main. rewrite Hv. reflexivity. Qed.

Lemma main_invalid_listen (err : error) :
  versionFlag f = false ->
  net_ResolveTCPAddr_ans w "tcp" (listen f) = inr err ->
  main w f =
    (validation_events w f ++
     [log_Fatalf_ev "Parse listen address failed! Exception: %s" [Error err]],
     Exit 1).
Proof.
  intros Hv Hr. unfold main, validation_events. rewrite Hv.
  destruct (runtime_GOOS w =? "android")%string; simpl; rewrite Hr; reflexivity.
Qed.

Lemma main_reset_found (addr : TCPAddr) :
  versionFlag f = false ->
  net_ResolveTCPAddr_ans w "tcp" (listen f) = inl addr ->
  newPassword f <> "" ->
  snd (config_GetConfigCached_ans w) = None ->
  main w f =
    (validation_events w f ++ signal_events w f ++
     [config_GetConfigCached_ev;
      conf_ResetPassword_ev (fst (config_GetConfigCached_ans w)) (newPassword f)],
     Done tt).
Proof.
  intros Hv Hr Hp Hc. apply String.eqb_neq in Hp.
  unfold main, validation_events, signal_events. rewrite Hv.
  destruct (runtime_GOOS w =? "android")%string;
    destruct (configFilePath f =? "")%string;
    simpl; rewrite Hr; simpl; rewrite Hp; simpl; rewrite Hc; reflexivity.
Qed.

Lemma main_reset_missing (addr : TCPAddr) (err : error) :
  versionFlag f = false ->
  net_ResolveTCPAddr_ans w "tcp" (listen f) = inl addr ->
  newPassword f <> "" ->
  snd (config_GetConfigCached_ans w) = Some err ->
  main w f =
    (validation_events w f ++ signal_events w f ++
     [config_GetConfigCached_ev;
      util_Log_ev "配置文件 %s 不存在, 可通过-c指定配置文件" [configFilePath f]],
     Done tt).
Proof.
  intros Hv Hr Hp Hc. apply String.eqb_neq in Hp.
  unfold main, validation_events, signal_events. rewrite Hv.
  destruct (runtime_GOOS w =? "android")%string;
    destruct (configFilePath f =? "")%string;
    simpl; rewrite Hr; simpl; rewrite Hp; simpl; rewrite Hc; reflexivity.
Qed.

Lemma main_service (addr : TCPAddr) :
  versionFlag f = false ->
  net_ResolveTCPAddr_ans w "tcp" (listen f) = inl addr ->
  newPassword f = "" ->
  main w f =
    (validation_events w f ++ signal_events w f ++ switch_events f ++
     service_events w f,
     Hang).
Proof.
  intros Hv Hr Hp. apply String.eqb_eq in Hp.
  unfold main, validation_events, signal_events, switch_events,
    service_events, migrated_config.
  rewrite Hv.
  destruct (runtime_GOOS w =? "android")%string;
    destruct (configFilePath f =? "")%string;
    simpl; rewrite Hr; simpl; rewrite Hp; simpl;
    destruct (skipVerify f); destruct (customDNS f =? "")%string;
    destruct (noWebService f); destruct (util_WaitInternet_returns w);
    reflexivity.
Qed.

(** The five modes cover every run of [main]. *)
Lemma main_modes :
  main w f = ([fmt_Println_ev version], Done tt) \/
  (exists err,
      main w f =
        (validation_events w f ++
         [log_Fatalf_ev "Parse listen address failed! Exception: %s" [Error err]],
         Exit 1)) \/
  (newPassword f <> "" /\
   exists e,
     main w f =
       (validation_events w f ++ signal_events w f ++
        [config_GetConfigCached_ev; e], Done tt) /\
     (e = conf_ResetPassword_ev (fst (config_GetConfigCached_ans w)) (newPassword f) \/
      e = util_Log_ev "配置文件 %s 不存在, 可通过-c指定配置文件" [configFilePath f])) \/
  (newPassword f = "" /\
   main w f =
     (validation_events w f ++ signal_events w f ++ switch_events f ++
      service_events w f, Hang)).
Proof.
  destruct (versionFlag f) eqn:Hv.
  { left. apply main_version. exact Hv. }
  destruct (net_ResolveTCPAddr_ans w "tcp" (listen f)) as [addr|err] eqn:Hr.
  2:{ right; left. exists err. apply main_invalid_listen; assumption. }
  destruct (String.eqb_spec (newPassword f) "") as [Hp|Hp].
  { right; right; right. split; [exact Hp|]. apply (main_service addr); assumption. }
  right; right; left. split; [exact Hp|].
  destruct (snd (config_GetConfigCached_ans w)) as [err|] eqn:Hc.
  - eexists. split; [apply (main_reset_missing addr err); assumption|].
    right. reflexivity.
  - eexists. split; [apply (main_reset_found addr); assumption|].
    left. reflexivity.
Qed.

End MainModes.

(** ** The web goroutine, case by case *)

Section WebModes.
Variable w : World.
Variable f : Flags.

(** [autoOpenExplorer] always returns to its caller. *)
Lemma autoOpenExplorer_returns : result (autoOpenExplorer w f) = Done tt.
Proof.
  unfold autoOpenExplorer, config_GetConfigCached, util_IsRunInDocker,
    net_ResolveTCPAddr, call, bind.
  cbn [fst snd].
  destruct (snd (config_GetConfigCached_ans w)); [|reflexivity].
  destruct (util_IsRunInDocker_ans w); [reflexivity|].
  destruct (net_ResolveTCPAddr_ans w "tcp" (listen f)); reflexivity.
Qed.

Lemma autoOpenExplorer_eta :
  autoOpenExplorer w f = (trace (autoOpenExplorer w f), Done tt).
Proof.
  pose proof autoOpenExplorer_returns as H. unfold result, trace in *.
  destruct (autoOpenExplorer w f) as [t o]. simpl in *. rewrite H. reflexivity.
Qed.

Lemma runWebServer_bind_failure (err : error) :
  net_Listen_ans w "tcp" (listen f) = inr err ->
  runWebServer w f =
    (listen_events f ++
     [util_LogStr_ev "监听端口发生异常, 请检查端口是否被占用! %s" [Error err]],
     Done (Some (errors_New
       (util_LogStr_ans w "监听端口发生异常, 请检查端口是否被占用! %s" [Error err])))).
Proof.
  intros Hl. unfold runWebServer, net_Listen, call. simpl. rewrite Hl. reflexivity.
Qed.

Lemma runWebServer_bound (l : Listener) :
  net_Listen_ans w "tcp" (listen f) = inl l ->
  runWebServer w f =
    (listen_events f ++ trace (autoOpenExplorer w f) ++ [http_Serve_ev l],
     result (http_Serve w l)).
Proof.
  intros Hl. unfold runWebServer, net_Listen, call. simpl. rewrite Hl.
  rewrite autoOpenExplorer_eta. simpl. reflexivity.
Qed.

Lemma runWebServer_serve_failure (l : Listener) (err : error) :
  net_Listen_ans w "tcp" (listen f) = inl l ->
  http_Serve_ans w l = Some err ->
  runWebServer w f =
    (listen_events f ++ trace (autoOpenExplorer w f) ++ [http_Serve_ev l],
     Done (Some err)).
Proof.
  intros Hl Hs. rewrite (runWebServer_bound l Hl).
  unfold http_Serve, result. simpl. rewrite Hs. reflexivity.
Qed.

(** What the goroutine does with an error of [runWebServer]. *)
Lemma webGoroutine_failure (t : list event) (err : error) :
  runWebServer w f = (t, Done (Some err)) ->
  webGoroutine w f =
    (t ++ [log_Println_ev (Error err); time_Sleep_ev time_Minute; os_Exit_ev 1],
     Exit 1).
Proof. intros Hr. unfold webGoroutine. rewrite Hr. reflexivity. Qed.

Lemma autoOpenExplorer_never_exits :
  never exits_process (trace (autoOpenExplorer w f)).
Proof.
  unfold autoOpenExplorer, config_GetConfigCached, util_IsRunInDocker,
    net_ResolveTCPAddr, call, bind, never.
  cbn [fst snd].
  destruct (snd (config_GetConfigCached_ans w)); [|repeat constructor].
  destruct (util_IsRunInDocker_ans w); [repeat constructor|].
  destruct (net_ResolveTCPAddr_ans w "tcp" (listen f)); repeat constructor.
Qed.

End WebModes.

(** ** Kinds of the events of each phase *)

Ltac phase_cases :=
  unfold validation_events, signal_events, switch_events, service_events,
    listen_events, route_events;
  repeat match goal with
         | |- context [if ?b then _ else _] => destruct b
         end.

Ltac never_by_cases := unfold never; phase_cases; simpl; repeat constructor.

Lemma validation_events_quiet (w : World) (f : Flags) :
  never opens_socket (validation_events w f) /\
  never registers_route (validation_events w f) /\
  never loads_config (validation_events w f) /\
  never writes_env (validation_events w f) /\
  never probes_network (validation_events w f) /\
  never mutates_password (validation_events w f) /\
  never migrates_config (validation_events w f) /\
  never is_go_webServer (validation_events w f) /\
  never runs_update_loop (validation_events w f) /\
  never applies_global_setting (validation_events w f).
Proof. repeat split; never_by_cases. Qed.

Lemma signal_events_quiet (w : World) (f : Flags) :
  never opens_socket (signal_events w f) /\
  never registers_route (signal_events w f) /\
  never mutates_password (signal_events w f) /\
  never migrates_config (signal_events w f) /\
  never is_go_webServer (signal_events w f) /\
  never runs_update_loop (signal_events w f) /\
  never applies_global_setting (signal_events w f).
Proof. repeat split; never_by_cases. Qed.

Lemma switch_events_quiet (f : Flags) :
  never opens_socket (switch_events f) /\
  never registers_route (switch_events f) /\
  never is_go_webServer (switch_events f).
Proof. repeat split; never_by_cases. Qed.

Lemma service_events_quiet (w : World) (f : Flags) :
  never opens_socket (service_events w f) /\
  never registers_route (service_events w f).
Proof. repeat split; never_by_cases. Qed.

(** ** The process, by what [main] did *)

Lemma process_without_fork (wm ww : World) (f : Flags) :
  never is_go_webServer (trace (main wm f)) ->
  web_thread (process wm ww f) = None /\
  events (process wm ww f) = trace (main wm f).
Proof.
  intros Hn. unfold process, events. simpl.
  rewrite (never_existsb _ _ Hn). simpl. rewrite app_nil_r. split; reflexivity.
Qed.

Lemma process_with_fork (wm ww : World) (f : Flags) :
  In go_webServer_ev (trace (main wm f)) ->
  web_thread (process wm ww f) = Some (webGoroutine ww f).
Proof.
  intros Hin. unfold process. simpl.
  assert (H : existsb is_go_webServer (trace (main wm f)) = true).
  { apply existsb_exists. exists go_webServer_ev. split; [exact Hin|reflexivity]. }
  rewrite H. reflexivity.
Qed.

Lemma never_not_In (p : event -> bool) (t : list event) (e : event) :
  never p t -> p e = true -> ~ In e t.
Proof.
  unfold never. intros Hn He Hin. rewrite Forall_forall in Hn.
  specialize (Hn e Hin). congruence.
Qed.

(** Outside the service mode, [main] does not fork, does not touch a
    socket or a route and does not enter the update loop. *)
Lemma main_ends_early (w : World) (f : Flags) (t : list event) :
  main w f = (t, Done tt) \/ main w f = (t, Exit 1) ->
  never is_go_webServer t /\ never opens_socket t /\
  never registers_route t /\ never runs_update_loop t /\
  never applies_global_setting t.
Proof.
  intros Hend.
  destruct (validation_events_quiet w f)
    as (Hv1 & Hv2 & _ & _ & _ & _ & _ & Hv3 & Hv4 & Hv5).
  destruct (signal_events_quiet w f) as (Hs1 & Hs2 & _ & _ & Hs3 & Hs4 & Hs5).
  destruct (main_modes w f) as [H|[[err H]|[[_ [e [H He]]]|[_ H]]]];
    rewrite H in Hend.
  - assert (t = [fmt_Println_ev version]) as -> by (destruct Hend; congruence).
    repeat split; repeat constructor.
  - assert (t = validation_events w f ++
                [log_Fatalf_ev "Parse listen address failed! Exception: %s"
                   [Error err]]) as -> by (destruct Hend; congruence).
    repeat split; apply never_app; try assumption; repeat constructor.
  - assert (t = validation_events w f ++ signal_events w f ++
                [config_GetConfigCached_ev; e]) as ->
        by (destruct Hend; congruence).
    repeat split; repeat (apply never_app; try assumption);
      destruct He; subst e; repeat constructor.
  - destruct Hend; discriminate.
Qed.

(** [main] returns or exits on its own only on the paths that end before
    its [go] statement. *)
Lemma main_fork_hangs (w : World) (f : Flags) :
  In go_webServer_ev (trace (main w f)) -> result (main w f) = Hang.
Proof.
  intros Hin. destruct (main w f) as [t o] eqn:Hm. unfold trace, result in *.
  simpl in *.
  destruct o as [[]|c|]; [exfalso|exfalso|reflexivity].
  - destruct (main_ends_early w f t (or_introl Hm)) as (Hn & _).
    exact (never_not_In _ _ go_webServer_ev Hn eq_refl Hin).
  - assert (c = 1) as ->.
    { destruct (main_modes w f) as [H|[[err H]|[[_ [e [H He]]]|[_ H]]]];
        rewrite H in Hm; congruence. }
    destruct (main_ends_early w f t (or_intror Hm)) as (Hn & _).
    exact (never_not_In _ _ go_webServer_ev Hn eq_refl Hin).
Qed.

(** The main goroutine never touches a socket or the route table itself. *)
Lemma main_thread_no_socket (w : World) (f : Flags) :
  never opens_socket (trace (main w f)) /\
  never registers_route (trace (main w f)).
Proof.
  destruct (main w f) as [t o] eqn:Hm. unfold trace. simpl.
  destruct (main_modes w f) as [H|[[err H]|[[_ [e [H He]]]|[_ H]]]].
  - rewrite H in Hm.
    destruct (main_ends_early w f t) as (_ & H1 & H2 & _).
    + left. congruence.
    + split; assumption.
  - rewrite H in Hm.
    destruct (main_ends_early w f t) as (_ & H1 & H2 & _).
    + right. congruence.
    + split; assumption.
  - rewrite H in Hm.
    destruct (main_ends_early w f t) as (_ & H1 & H2 & _).
    + left. congruence.
    + split; assumption.
  - rewrite H in Hm.
    assert (t = validation_events w f ++ signal_events w f ++
                switch_events f ++ service_events w f) as -> by congruence.
    destruct (validation_events_quiet w f) as (Hv1 & Hv2 & _).
    destruct (signal_events_quiet w f) as (Hs1 & Hs2 & _).
    destruct (switch_events_quiet f) as (Hw1 & Hw2 & _).
    destruct (service_events_quiet w f) as (He1 & He2).
    split; do 3 (apply never_app; [assumption|]); assumption.
Qed.

(** With [-noweb] the [go] statement of [main] is skipped. *)
Lemma noweb_never_forks (w : World) (f : Flags) :
  noWebService f = true -> never is_go_webServer (trace (main w f)).
Proof.
  intros Hn. destruct (main w f) as [t o] eqn:Hm. unfold trace. simpl.
  destruct (main_modes w f) as [H|[[err H]|[[_ [e [H He]]]|[_ H]]]];
    rewrite H in Hm.
  - apply (main_ends_early w f t). left. congruence.
  - apply (main_ends_early w f t). right. congruence.
  - apply (main_ends_early w f t). left. congruence.
  - assert (t = validation_events w f ++ signal_events w f ++
                switch_events f ++ service_events w f) as -> by congruence.
    destruct (validation_events_quiet w f) as (_ & _ & _ & _ & _ & _ & _ & Hv & _).
    destruct (signal_events_quiet w f) as (_ & _ & _ & _ & Hs & _).
    destruct (switch_events_quiet f) as (_ & _ & Hw).
    do 3 (apply never_app; [assumption|]).
    unfold service_events. rewrite Hn. never_by_cases.
Qed.

(** * The claims *)

(** ** C1: a malformed listen address *)

(** C1, counterexample.  With [-v] and the malformed address ["localhost"]
    (no port), [main] prints the version and returns: it does not halt at
    the address validation, which it never reaches. *)
Lemma version_flag_skips_validation :
  let f := with_versionFlag true (with_listen "localhost" sampleFlags) in
  (exists err, net_ResolveTCPAddr_ans homeWorld "tcp" (listen f) = inr err) /\
  main homeWorld f = ([fmt_Println_ev version], Done tt) /\
  ~ halts_at_validation homeWorld f.
Proof.
  cbv zeta. split; [|split].
  - eexists. reflexivity.
  - reflexivity.
  - intros [err H]. discriminate H.
Qed.

(** C1, amended.  For every malformed listen address, no thread of the
    process opens a socket, loads the configuration, writes an environment
    signal or probes the network, and no web goroutine is forked.  Without
    [-v] the process halts at the address validation: after the optional
    Android time-zone fix it calls [net.ResolveTCPAddr], logs the fatal
    message and exits with status 1.  With [-v] it prints the version and
    exits with status 0 before the validation. *)
Theorem invalid_listen_halts (wm ww : World) (f : Flags) (err : error) :
  net_ResolveTCPAddr_ans wm "tcp" (listen f) = inr err ->
  no_startup_effect (events (process wm ww f)) /\
  web_thread (process wm ww f) = None /\
  if versionFlag f
  then main wm f = ([fmt_Println_ev version], Done tt) /\
       exit_status (process wm ww f) = Some 0
  else halts_at_validation wm f /\
       main wm f =
         (validation_events wm f ++
          [log_Fatalf_ev "Parse listen address failed! Exception: %s" [Error err]],
          Exit 1) /\
       exit_status (process wm ww f) = Some 1.
Proof.
  intros Hr.
  assert (Hm : main wm f =
               if versionFlag f then ([fmt_Println_ev version], Done tt)
               else (validation_events wm f ++
                     [log_Fatalf_ev "Parse listen address failed! Exception: %s"
                        [Error err]], Exit 1)).
  { destruct (versionFlag f) eqn:Hv.
    - apply main_version. exact Hv.
    - apply main_invalid_listen; assumption. }
  assert (Hquiet : no_startup_effect (trace (main wm f)) /\
                   never is_go_webServer (trace (main wm f))).
  { rewrite Hm. destruct (validation_events_quiet wm f)
      as (H1 & _ & H3 & H4 & H5 & _ & _ & H8 & _).
    destruct (versionFlag f); unfold trace, no_startup_effect; simpl.
    - repeat split; repeat constructor.
    - repeat split; apply never_app; try assumption; repeat constructor. }
  destruct Hquiet as [Hq Hn].
  destruct (process_without_fork wm ww f Hn) as [Hweb Hev].
  rewrite Hev. split; [exact Hq|]. split; [exact Hweb|].
  unfold exit_status. rewrite Hweb. simpl. unfold result. rewrite Hm.
  destruct (versionFlag f).
  - split; reflexivity.
  - split; [exists err; rewrite Hm; reflexivity|]. split; reflexivity.
Qed.

(** C1, witness: the default flags with [-l localhost]. *)
Lemma invalid_listen_halts_witness :
  net_ResolveTCPAddr_ans homeWorld "tcp" "localhost"
  = inr (errors_New "missing port in address") /\
  halts_at_validation homeWorld (with_listen "localhost" sampleFlags) /\
  exit_status (process homeWorld homeWorld (with_listen "localhost" sampleFlags))
  = Some 1.
Proof.
  pose proof (invalid_listen_halts homeWorld homeWorld
                (with_listen "localhost" sampleFlags)
                (errors_New "missing port in address") eq_refl) as H.
  simpl in H. destruct H as (_ & _ & Hh & _ & Hx).
  split; [reflexivity|]. split; [exact Hh|exact Hx].
Defined.

(** ** C2: a failed load of the cached configuration *)

Ltac in_list := simpl; repeat (first [left; reflexivity | right]).

Ltac in_phases :=
  unfold trace, fst, validation_events, signal_events, switch_events,
    service_events;
  repeat match goal with
         | |- context [if ?b then _ else _] => destruct b
         end;
  in_list.

(** C2, counterexample.  With the default flags and no configuration file,
    [config.GetConfigCached] fails and [main] goes on: it migrates the
    configuration value it got, forks the web service and enters the update
    loop. *)
Lemma load_failure_goes_on :
  snd (config_GetConfigCached_ans freshWorld) <> None /\
  In (conf_CompatibleConfig_ev {| Lang := "" |}) (trace (main freshWorld sampleFlags)) /\
  In go_webServer_ev (trace (main freshWorld sampleFlags)) /\
  In (dns_RunTimer_ev 300000000000) (trace (main freshWorld sampleFlags)) /\
  ~ load_failure_is_terminal freshWorld sampleFlags.
Proof.
  split; [discriminate|].
  split; [in_list|]. split; [in_list|]. split; [in_list|].
  intros H. specialize (H eq_refl). unfold never in H.
  assert (Hc : snd (config_GetConfigCached_ans freshWorld) <> None) by discriminate.
  specialize (H Hc). rewrite Forall_forall in H.
  specialize (H go_webServer_ev). simpl in H.
  assert (Hf : false = true -> False) by discriminate.
  apply Hf. symmetry. apply H. in_list.
Qed.

(** C2, amended.  A failed load of the cached configuration during
    bootstrap (outside the reset-password mode) is not terminal: [main]
    discards the error and goes on with the configuration value returned.
    It migrates that value, forks the web service unless [-noweb] is set,
    waits in the connectivity gate and, once the gate returns, enters the
    update loop; the run is the same as when the load gives the same value
    without an error. *)
Theorem load_failure_not_terminal (w : World) (f : Flags)
    (addr : TCPAddr) (err : error) :
  versionFlag f = false ->
  net_ResolveTCPAddr_ans w "tcp" (listen f) = inl addr ->
  newPassword f = "" ->
  snd (config_GetConfigCached_ans w) = Some err ->
  result (main w f) = Hang /\
  In (conf_CompatibleConfig_ev (fst (config_GetConfigCached_ans w)))
     (trace (main w f)) /\
  (if noWebService f
   then never is_go_webServer (trace (main w f))
   else In go_webServer_ev (trace (main w f))) /\
  In (util_WaitInternet_ev (dns_Addresses w)) (trace (main w f)) /\
  (if util_WaitInternet_returns w
   then In (dns_RunTimer_ev (Duration_mul (time_Duration (every f)) time_Second))
           (trace (main w f))
   else never runs_update_loop (trace (main w f))) /\
  main w f = main (with_cached (fst (config_GetConfigCached_ans w), None) w) f.
Proof.
  intros Hv Hr Hp Hc.
  pose proof (main_service w f addr Hv Hr Hp) as Hm.
  pose proof (main_service (with_cached (fst (config_GetConfigCached_ans w), None) w)
                f addr Hv Hr Hp) as Hm'.
  split; [rewrite Hm; reflexivity|].
  split; [rewrite Hm; in_phases|].
  split.
  { destruct (noWebService f) eqn:Hn.
    - apply noweb_never_forks. exact Hn.
    - rewrite Hm. unfold trace, fst, service_events. rewrite Hn.
      in_phases. }
  split; [rewrite Hm; in_phases|].
  split.
  { destruct (util_WaitInternet_returns w) eqn:Hw.
    - rewrite Hm. unfold trace, fst, service_events. rewrite Hw.
      in_phases.
    - rewrite Hm. unfold trace, fst.
      destruct (validation_events_quiet w f) as (_ & _ & _ & _ & _ & _ & _ & _ & H1 & _).
      destruct (signal_events_quiet w f) as (_ & _ & _ & _ & _ & H2 & _).
      apply never_app; [assumption|]. apply never_app; [assumption|].
      unfold service_events. rewrite Hw. never_by_cases. }
  rewrite Hm, Hm'. reflexivity.
Qed.

(** C2, witness: the default flags on a host without a configuration file. *)
Lemma load_failure_not_terminal_witness :
  snd (config_GetConfigCached_ans freshWorld) = Some (errors_New "config file not found") /\
  result (main freshWorld sampleFlags) = Hang /\
  In go_webServer_ev (trace (main freshWorld sampleFlags)).
Proof.
  pose proof (load_failure_not_terminal freshWorld sampleFlags addr9876
                (errors_New "config file not found")
                eq_refl eq_refl eq_refl eq_refl) as H.
  destruct H as (Hh & _ & Hg & _).
  split; [reflexivity|]. split; [exact Hh|exact Hg].
Defined.

(** ** C3 and C7: the reset-password mode *)

(** The reset-password mode ends before the [go] statement. *)
Lemma reset_mode_process (wm ww : World) (f : Flags) (t : list event) :
  main wm f = (t, Done tt) ->
  events (process wm ww f) = t /\
  web_thread (process wm ww f) = None /\
  exit_status (process wm ww f) = Some 0 /\
  never is_go_webServer t /\ never runs_update_loop t /\
  never applies_global_setting t.
Proof.
  intros Hm.
  destruct (main_ends_early wm f t (or_introl Hm)) as (Hn & _ & _ & Hu & Hg).
  assert (Hn' : never is_go_webServer (trace (main wm f))) by (rewrite Hm; exact Hn).
  destruct (process_without_fork wm ww f Hn') as [Hweb Hev].
  rewrite Hev. unfold exit_status. rewrite Hweb. simpl.
  unfold result, trace. rewrite Hm. simpl. repeat split; assumption.
Qed.

(** C3, counterexample.  With [-resetPassword secret -l localhost] and a
    cached configuration at hand, the address validation fails first: the
    process exits with status 1 and no password mutation takes place. *)
Lemma reset_password_behind_validation :
  let f := with_newPassword "secret" (with_listen "localhost" sampleFlags) in
  newPassword f <> "" /\
  snd (config_GetConfigCached_ans homeWorld) = None /\
  count mutates_password (events (process homeWorld homeWorld f)) = 0%nat /\
  exit_status (process homeWorld homeWorld f) = Some 1 /\
  ~ resets_password_once homeWorld homeWorld f.
Proof.
  cbv zeta. split; [discriminate|]. split; [reflexivity|].
  split; [reflexivity|]. split; [reflexivity|].
  intros (Hc & _). discriminate Hc.
Qed.

(** C3, amended.  Whenever [-resetPassword] is non-empty, [-v] is not set,
    the listen address resolves and a cached configuration exists, the
    process performs exactly one password mutation, as the last call of
    [main], and then exits with status 0, without ever starting the web
    service or the update loop. *)
Theorem reset_password_once (wm ww : World) (f : Flags) (addr : TCPAddr) :
  versionFlag f = false ->
  net_ResolveTCPAddr_ans wm "tcp" (listen f) = inl addr ->
  newPassword f <> "" ->
  snd (config_GetConfigCached_ans wm) = None ->
  resets_password_once wm ww f /\
  main wm f =
    (validation_events wm f ++ signal_events wm f ++
     [config_GetConfigCached_ev;
      conf_ResetPassword_ev (fst (config_GetConfigCached_ans wm)) (newPassword f)],
     Done tt).
Proof.
  intros Hv Hr Hp Hc.
  pose proof (main_reset_found wm f addr Hv Hr Hp Hc) as Hm.
  split; [|exact Hm].
  destruct (reset_mode_process wm ww f _ Hm) as (Hev & Hweb & Hx & Hn & Hu & _).
  unfold resets_password_once. rewrite Hev.
  repeat split; try assumption.
  destruct (validation_events_quiet wm f) as (_ & _ & _ & _ & _ & H1 & _).
  destruct (signal_events_quiet wm f) as (_ & _ & H2 & _).
  rewrite !count_app, (never_count _ _ H1), (never_count _ _ H2). reflexivity.
Qed.

(** C3, witness: [-resetPassword secret] on a host with a configuration. *)
Lemma reset_password_once_witness :
  newPassword (with_newPassword "secret" sampleFlags) <> "" /\
  resets_password_once homeWorld homeWorld (with_newPassword "secret" sampleFlags).
Proof.
  split; [discriminate|].
  apply (reset_password_once homeWorld homeWorld
           (with_newPassword "secret" sampleFlags) addr9876).
  - reflexivity.
  - reflexivity.
  - discriminate.
  - reflexivity.
Defined.

(** C7, counterexample.  With [-resetPassword secret -l localhost] and no
    cached configuration, the process is stopped by the address validation
    with status 1; the diagnostic of the reset-password mode is not
    logged. *)
Lemma reset_diagnostic_behind_validation :
  let f := with_newPassword "secret" (with_listen "localhost" sampleFlags) in
  newPassword f <> "" /\
  snd (config_GetConfigCached_ans freshWorld) <> None /\
  exit_status (process freshWorld freshWorld f) = Some 1 /\
  ~ logs_diagnostic_and_exits freshWorld freshWorld f.
Proof.
  cbv zeta. split; [discriminate|]. split; [discriminate|].
  split; [reflexivity|].
  intros (_ & Hx). discriminate Hx.
Qed.

(** C7, amended.  Whenever [-resetPassword] is non-empty, [-v] is not set,
    the listen address resolves and no cached configuration exists, [main]
    writes the version signal and, for a non-empty [-c], the config-path
    signal (for an empty [-c] no config-path signal is written), tries the
    load, logs the diagnostic and returns: the process exits with status 0
    with no password mutation, no configuration migration and no global
    switch applied, and without starting the update loop or the web
    service. *)
Theorem reset_password_missing_config (wm ww : World) (f : Flags)
    (addr : TCPAddr) (err : error) :
  versionFlag f = false ->
  net_ResolveTCPAddr_ans wm "tcp" (listen f) = inl addr ->
  newPassword f <> "" ->
  snd (config_GetConfigCached_ans wm) = Some err ->
  logs_diagnostic_and_exits wm ww f /\
  main wm f =
    (validation_events wm f ++ signal_events wm f ++
     [config_GetConfigCached_ev; reset_diagnostic f], Done tt) /\
  never mutates_password (events (process wm ww f)) /\
  never migrates_config (events (process wm ww f)) /\
  never applies_global_setting (events (process wm ww f)) /\
  web_thread (process wm ww f) = None /\
  never is_go_webServer (events (process wm ww f)) /\
  never runs_update_loop (events (process wm ww f)) /\
  In (os_Setenv_ev VersionEnv version) (events (process wm ww f)) /\
  (if (configFilePath f =? "")%string
   then never (writes_env_key ConfigFilePathENV) (events (process wm ww f))
   else In (os_Setenv_ev ConfigFilePathENV
              (fst (filepath_Abs_ans wm (configFilePath f))))
           (events (process wm ww f))).
Proof.
  intros Hv Hr Hp Hc.
  pose proof (main_reset_missing wm f addr err Hv Hr Hp Hc) as Hm.
  fold (reset_diagnostic f) in Hm.
  destruct (reset_mode_process wm ww f _ Hm) as (Hev & Hweb & Hx & Hn & Hu & Hg).
  unfold logs_diagnostic_and_exits. rewrite Hev.
  destruct (validation_events_quiet wm f) as (_ & _ & _ & _ & _ & H1 & H2 & _).
  destruct (signal_events_quiet wm f) as (_ & _ & H3 & H4 & _).
  assert (Hpath : never (writes_env_key ConfigFilePathENV) (validation_events wm f))
    by never_by_cases.
  split; [split; [|exact Hx]|].
  { rewrite !in_app_iff. right. right. right. left. reflexivity. }
  split; [exact Hm|].
  split; [do 2 (apply never_app; [assumption|]); repeat constructor|].
  split; [do 2 (apply never_app; [assumption|]); repeat constructor|].
  split; [exact Hg|]. split; [exact Hweb|]. split; [exact Hn|].
  split; [exact Hu|]. split.
  - apply in_or_app. right. apply in_or_app. left.
    unfold signal_events. left. reflexivity.
  - unfold signal_events.
    destruct (configFilePath f =? "")%string.
    + apply never_app; [exact Hpath|]. unfold never, reset_diagnostic.
      simpl. repeat constructor.
    + apply in_or_app. right. simpl. right. right. left. reflexivity.
Qed.

(** C7, witness: [-resetPassword secret] on a host without a
    configuration. *)
Lemma reset_password_missing_config_witness :
  snd (config_GetConfigCached_ans freshWorld)
  = Some (errors_New "config file not found") /\
  logs_diagnostic_and_exits freshWorld freshWorld
    (with_newPassword "secret" sampleFlags).
Proof.
  split; [reflexivity|].
  apply (reset_password_missing_config freshWorld freshWorld
           (with_newPassword "secret" sampleFlags) addr9876
           (errors_New "config file not found")).
  - reflexivity.
  - reflexivity.
  - discriminate.
  - reflexivity.
Defined.

(** ** C5: [-noweb] *)

(** C5.  Whenever [-noweb] is set, whatever the other flags and the
    answers of the environment, no web goroutine exists and no thread of
    the process binds a socket or registers a route. *)
Theorem noweb_no_socket (wm ww : World) (f : Flags) :
  noWebService f = true ->
  web_thread (process wm ww f) = None /\
  never opens_socket (events (process wm ww f)) /\
  never registers_route (events (process wm ww f)).
Proof.
  intros Hn.
  destruct (process_without_fork wm ww f (noweb_never_forks wm f Hn)) as [Hweb Hev].
  rewrite Hev. split; [exact Hweb|]. apply main_thread_no_socket.
Qed.

(** C5, witness: the default flags with [-noweb]. *)
Lemma noweb_no_socket_witness :
  noWebService (with_noWebService true sampleFlags) = true /\
  never opens_socket
    (events (process freshWorld busyPortWorld (with_noWebService true sampleFlags))).
Proof.
  split; [reflexivity|].
  apply (noweb_no_socket freshWorld busyPortWorld (with_noWebService true sampleFlags)).
  reflexivity.
Defined.

(** ** C6: [-v] *)

(** C6.  With [-v], the only call of the whole process is the
    [fmt.Println] of the version string; the process exits with status 0
    and performs no file-system, network or socket operation.  This holds
    for every value of the other flags, so for [-v] alone, and whether or
    not a configuration file is present. *)
Theorem version_only (wm ww : World) (f : Flags) :
  versionFlag f = true ->
  events (process wm ww f) = [fmt_Println_ev version] /\
  exit_status (process wm ww f) = Some 0 /\
  never filesystem_op (events (process wm ww f)) /\
  never network_op (events (process wm ww f)) /\
  never opens_socket (events (process wm ww f)).
Proof.
  intros Hv. pose proof (main_version wm f Hv) as Hm.
  destruct (reset_mode_process wm ww f _ Hm) as (Hev & _ & Hx & _).
  rewrite Hev. repeat split; try assumption; repeat constructor.
Qed.

(** C6, witness: [-v] alone on a host without a configuration file. *)
Lemma version_only_witness :
  versionFlag (with_versionFlag true sampleFlags) = true /\
  snd (config_GetConfigCached_ans freshWorld) <> None /\
  events (process freshWorld freshWorld (with_versionFlag true sampleFlags))
  = [fmt_Println_ev "DEV"].
Proof.
  split; [reflexivity|]. split; [discriminate|].
  apply (version_only freshWorld freshWorld (with_versionFlag true sampleFlags)).
  reflexivity.
Defined.

(** ** C10: the reset-password mode leaves the late settings alone *)

Lemma apply_event_frame (g : Globals) (e : event) :
  applies_global_setting e = false -> same_late_settings g (apply_event g e).
Proof.
  unfold same_late_settings.
  destruct e as [| | | |key value| | | | | | | | | | | | | | | | | | | | |];
    simpl; intros He; try (repeat split; reflexivity); try discriminate.
  destruct key; simpl in *; try discriminate; repeat split; reflexivity.
Qed.

(** A trace without a late setting leaves the three of them as they
    were. *)
Lemma globals_frame (t : list event) :
  never applies_global_setting t ->
  forall g, same_late_settings g (globals_after t g).
Proof.
  unfold never, globals_after.
  induction 1 as [|e t He _ IH]; intros g; simpl.
  - repeat split.
  - destruct (apply_event_frame g e He) as (H1 & H2 & H3).
    destruct (IH (apply_event g e)) as (I1 & I2 & I3).
    unfold same_late_settings. rewrite I1, I2, I3. repeat split; assumption.
Qed.

Lemma main_reset_mode_quiet (w : World) (f : Flags) :
  newPassword f <> "" ->
  never is_go_webServer (trace (main w f)) /\
  never applies_global_setting (trace (main w f)).
Proof.
  intros Hp. destruct (main w f) as [t o] eqn:Hm. unfold trace. simpl.
  destruct (main_modes w f) as [H|[[err H]|[[_ [e [H He]]]|[Hp' H]]]];
    [| | |contradiction].
  - rewrite H in Hm.
    destruct (main_ends_early w f t) as (H1 & _ & _ & _ & H2);
      [left; congruence|split; assumption].
  - rewrite H in Hm.
    destruct (main_ends_early w f t) as (H1 & _ & _ & _ & H2);
      [right; congruence|split; assumption].
  - rewrite H in Hm.
    destruct (main_ends_early w f t) as (H1 & _ & _ & _ & H2);
      [left; congruence|split; assumption].
Qed.

(** C10.  Whenever [-resetPassword] is non-empty, whatever [-skipVerify],
    [-dns] and [-cacheTimes] say, no thread of the process calls
    [util.SetInsecureSkipVerify] or [util.SetDNS] or writes the cache-times
    signal: the three settings are, after the run, what they were before
    it. *)
Theorem reset_mode_skips_late_settings (wm ww : World) (f : Flags) (g : Globals) :
  newPassword f <> "" ->
  never applies_global_setting (events (process wm ww f)) /\
  same_late_settings g (globals_after (events (process wm ww f)) g).
Proof.
  intros Hp. destruct (main_reset_mode_quiet wm f Hp) as [Hn Hg].
  destruct (process_without_fork wm ww f Hn) as [_ Hev]. rewrite Hev.
  split; [exact Hg|]. apply globals_frame. exact Hg.
Qed.

(** C10, witness: [-resetPassword secret -skipVerify -dns 8.8.8.8
    -cacheTimes 9]. *)
Lemma reset_mode_skips_late_settings_witness :
  newPassword resetWithSwitches <> "" /\
  same_late_settings initialGlobals
    (globals_after (events (process homeWorld homeWorld resetWithSwitches))
       initialGlobals).
Proof.
  split; [discriminate|].
  apply (reset_mode_skips_late_settings homeWorld homeWorld resetWithSwitches
           initialGlobals).
  discriminate.
Defined.

(** ** C8: the order of the startup *)

Ltac main_trace_cases w f :=
  let H := fresh "H" in
  let He := fresh "He" in
  destruct (main_modes w f) as [H|[[? H]|[[_ [? [H [He|He]]]]|[_ H]]]];
  rewrite H; try rewrite He; unfold trace, fst.







(** The fork does happen in the service mode with the web service enabled. *)
Lemma service_mode_forks (w : World) (f : Flags) (addr : TCPAddr) :
  versionFlag f = false ->
  net_ResolveTCPAddr_ans w "tcp" (listen f) = inl addr ->
  newPassword f = "" ->
  noWebService f = false ->
  In go_webServer_ev (trace (main w f)).
Proof.
  intros Hv Hr Hp Hn. rewrite (main_service w f addr Hv Hr Hp).
  unfold trace, fst, service_events. rewrite Hn. in_phases.
Qed.

(** Only the service mode reaches the [go] statement. *)
Lemma fork_in_service_mode (w : World) (f : Flags) :
  In go_webServer_ev (trace (main w f)) ->
  main w f =
    (validation_events w f ++ signal_events w f ++ switch_events f ++
     service_events w f, Hang).
Proof.
  intros Hin. pose proof (main_fork_hangs w f Hin) as Hh.
  destruct (main_modes w f) as [H|[[err H]|[[_ [e [H He]]]|[_ H]]]];
    try exact H; rewrite H in Hh; discriminate Hh.
Qed.

(** ** Failures of the web service: what [runWebServer] returns *)

Lemma listen_events_never_exit (f : Flags) : never exits_process (listen_events f).
Proof. never_by_cases. Qed.

(** [runWebServer] hands every failure back to its caller. *)
Lemma runWebServer_returns_failure (w : World) (f : Flags) :
  web_service_fails w f ->
  exists t err,
    runWebServer w f = (t, Done (Some err)) /\ never exits_process t.
Proof.
  intros [[err Hl]|[l [err [Hl Hs]]]].
  - eexists. eexists. split; [apply (runWebServer_bind_failure w f err Hl)|].
    apply never_app; [apply listen_events_never_exit|repeat constructor].
  - eexists. exists err.
    split; [apply (runWebServer_serve_failure w f l err Hl Hs)|].
    apply never_app; [apply listen_events_never_exit|].
    apply never_app; [apply autoOpenExplorer_never_exits|repeat constructor].
Qed.

(** ** C9: the convenience action after the bind *)

Lemma autoOpenExplorer_trace (w : World) (f : Flags) :
  trace (autoOpenExplorer w f) =
    config_GetConfigCached_ev ::
    match snd (config_GetConfigCached_ans w) with
    | None => []
    | Some _ => convenience_events w f
    end.
Proof.
  unfold autoOpenExplorer, convenience_events, browser_url, docker_hint,
    config_GetConfigCached, util_IsRunInDocker, net_ResolveTCPAddr, call, bind,
    trace.
  cbn [fst snd].
  destruct (snd (config_GetConfigCached_ans w)); [|reflexivity].
  destruct (util_IsRunInDocker_ans w); [reflexivity|].
  destruct (net_ResolveTCPAddr_ans w "tcp" (listen f)) as [addr|err];
    [|reflexivity].
  destruct (IP_IsGlobalUnicast addr); reflexivity.
Qed.

(** C9.  After a successful bind, [autoOpenExplorer] always returns to
    [runWebServer] and makes no exit call, [http.Serve] is always reached
    and what [runWebServer] hands to its caller is the answer of
    [http.Serve] alone.  When a configuration exists, the only call of
    [autoOpenExplorer] is the load that tells it so.  When none exists, it
    asks whether it runs in Docker and then either logs the hint or
    resolves the listen address and, if that succeeds, opens the browser on
    a goroutine of its own, at the URL built from that address; a failed
    resolution is dropped. *)
Theorem explorer_never_fails (w : World) (f : Flags) (l : Listener) :
  net_Listen_ans w "tcp" (listen f) = inl l ->
  result (autoOpenExplorer w f) = Done tt /\
  never exits_process (trace (autoOpenExplorer w f)) /\
  runWebServer w f =
    (listen_events f ++ trace (autoOpenExplorer w f) ++ [http_Serve_ev l],
     result (http_Serve w l)) /\
  trace (autoOpenExplorer w f) =
    config_GetConfigCached_ev ::
    match snd (config_GetConfigCached_ans w) with
    | None => []
    | Some _ => convenience_events w f
    end.
Proof.
  intros Hl.
  split; [apply autoOpenExplorer_returns|].
  split; [apply autoOpenExplorer_never_exits|].
  split; [apply (runWebServer_bound w f l Hl)|].
  apply autoOpenExplorer_trace.
Qed.

(** C9, witness: the first start on a host without a configuration file;
    the browser is opened at the port of the listen address. *)
Lemma explorer_never_fails_witness :
  net_Listen_ans freshWorld "tcp" (listen sampleFlags) = inl (mkListener "tcp" ":9876") /\
  trace (autoOpenExplorer freshWorld sampleFlags) =
    [config_GetConfigCached_ev; util_IsRunInDocker_ev;
     net_ResolveTCPAddr_ev "tcp" ":9876";
     go_util_OpenExplorer_ev "http://127.0.0.1:9876"].
Proof.
  split; [reflexivity|].
  destruct (explorer_never_fails freshWorld sampleFlags (mkListener "tcp" ":9876")
              eq_refl) as (_ & _ & _ & Ht).
  rewrite Ht. reflexivity.
Defined.

(** * Further properties of [main.go] *)

(** ** [main] and the web goroutine as the flags and the world decide *)

Lemma never_afterb_sound (p q : event -> bool) (t : list event) :
  never_afterb p q t = true -> never_after p q t.
Proof.
  induction t as [|x t IH]; intros Hb pre e post Heq Hq.
  - destruct pre; discriminate.
  - simpl in Hb. apply andb_true_iff in Hb. destruct Hb as [Hx Ht].
    destruct pre as [|y pre]; simpl in Heq; injection Heq as -> ->.
    + rewrite Hq in Hx. apply negb_true_iff in Hx.
      unfold never. apply Forall_forall. intros a Ha.
      destruct (p a) eqn:Hpa; [|reflexivity].
      assert (Hex : existsb p post = true)
        by (apply existsb_exists; exists a; split; assumption).
      congruence.
    + exact (IH Ht pre e post eq_refl Hq).
Qed.

Lemma serves_service (w : World) (f : Flags) :
  serves w f = true ->
  main w f =
    (validation_events w f ++ signal_events w f ++ switch_events f ++
     service_events w f, Hang).
Proof.
  unfold serves, resolves. intros Hs.
  apply andb_true_iff in Hs. destruct Hs as [Hs Hp].
  apply andb_true_iff in Hs. destruct Hs as [Hv Hr].
  apply negb_true_iff in Hv. apply String.eqb_eq in Hp.
  destruct (net_ResolveTCPAddr_ans w "tcp" (listen f)) as [addr|err] eqn:Ha;
    [|discriminate].
  exact (main_service w f addr Hv Ha Hp).
Qed.

Lemma not_serves_ends_early (w : World) (f : Flags) :
  serves w f = false ->
  exists t, main w f = (t, Done tt) \/ main w f = (t, Exit 1).
Proof.
  unfold serves, resolves. intros Hs.
  destruct (main_modes w f) as [H|[[err H]|[[_ [e [H He]]]|[Hp H]]]].
  - eexists. left. exact H.
  - eexists. right. exact H.
  - eexists. left. exact H.
  - exfalso. destruct (versionFlag f) eqn:Hv.
    + rewrite (main_version w f Hv) in H. discriminate.
    + destruct (net_ResolveTCPAddr_ans w "tcp" (listen f)) as [addr|err] eqn:Ha.
      * apply String.eqb_eq in Hp. rewrite Hp in Hs. discriminate.
      * rewrite (main_invalid_listen w f err Hv Ha) in H. discriminate.
Qed.

Lemma fork_iff_starts_web (w : World) (f : Flags) :
  existsb is_go_webServer (trace (main w f)) = starts_web w f.
Proof.
  unfold starts_web. destruct (serves w f) eqn:Hs; simpl.
  - rewrite (serves_service w f Hs). unfold trace, fst.
    destruct (validation_events_quiet w f) as (_ & _ & _ & _ & _ & _ & _ & Hv & _).
    destruct (signal_events_quiet w f) as (_ & _ & _ & _ & Hg & _).
    destruct (switch_events_quiet f) as (_ & _ & Hw).
    rewrite !existsb_app, (never_existsb _ _ Hv), (never_existsb _ _ Hg),
      (never_existsb _ _ Hw).
    unfold service_events.
    destruct (noWebService f); destruct (util_WaitInternet_returns w); reflexivity.
  - destruct (not_serves_ends_early w f Hs) as [t Hend].
    destruct (main_ends_early w f t Hend) as (Hn & _).
    apply never_existsb.
    destruct Hend as [H|H]; rewrite H; exact Hn.
Qed.

Lemma webGoroutine_result (w : World) (f : Flags) :
  result (webGoroutine w f) = if web_fails w f then Exit 1 else Hang.
Proof.
  unfold web_fails.
  destruct (net_Listen_ans w "tcp" (listen f)) as [l|err] eqn:Hl.
  - destruct (http_Serve_ans w l) as [err|] eqn:Hs.
    + rewrite (webGoroutine_failure w f _ err
                 (runWebServer_serve_failure w f l err Hl Hs)).
      reflexivity.
    + unfold webGoroutine. rewrite (runWebServer_bound w f l Hl).
      unfold http_Serve, result. simpl. rewrite Hs. reflexivity.
  - rewrite (webGoroutine_failure w f _ _ (runWebServer_bind_failure w f err Hl)).
    reflexivity.
Qed.


(** X2.  The web goroutine exists exactly when [-v] is not set, the listen
    address resolves, [-resetPassword] is empty and [-noweb] is not set;
    [main] reaches its [go] statement at most once. *)
Theorem web_thread_iff_starts_web (wm ww : World) (f : Flags) :
  web_thread (process wm ww f) =
    (if starts_web wm f then Some (webGoroutine ww f) else None) /\
  count is_go_webServer (trace (main wm f)) = (if starts_web wm f then 1 else 0)%nat.
Proof.
  split.
  - unfold process. cbn [web_thread]. rewrite fork_iff_starts_web. reflexivity.
  - unfold starts_web. destruct (serves wm f) eqn:Hs; simpl.
    + rewrite (serves_service wm f Hs). unfold trace, fst.
      destruct (validation_events_quiet wm f) as (_ & _ & _ & _ & _ & _ & _ & Hv & _).
      destruct (signal_events_quiet wm f) as (_ & _ & _ & _ & Hg & _).
      destruct (switch_events_quiet f) as (_ & _ & Hw).
      rewrite !count_app, (never_count _ _ Hv), (never_count _ _ Hg),
        (never_count _ _ Hw).
      unfold service_events.
      destruct (noWebService f); destruct (util_WaitInternet_returns wm); reflexivity.
    + destruct (not_serves_ends_early wm f Hs) as [t Hend].
      destruct (main_ends_early wm f t Hend) as (Hn & _).
      apply never_count. destruct Hend as [H|H]; rewrite H; exact Hn.
Qed.

(** ** The web goroutine *)

Lemma runWebServer_trace (w : World) (f : Flags) :
  trace (runWebServer w f) =
    listen_events f ++
    match net_Listen_ans w "tcp" (listen f) with
    | inr err =>
        [util_LogStr_ev "监听端口发生异常, 请检查端口是否被占用! %s" [Error err]]
    | inl l => trace (autoOpenExplorer w f) ++ [http_Serve_ev l]
    end.
Proof.
  destruct (net_Listen_ans w "tcp" (listen f)) as [l|err] eqn:Hl.
  - rewrite (runWebServer_bound w f l Hl). reflexivity.
  - rewrite (runWebServer_bind_failure w f err Hl). reflexivity.
Qed.

Lemma webGoroutine_trace (w : World) (f : Flags) :
  exists tail,
    trace (webGoroutine w f) = trace (runWebServer w f) ++ tail /\
    ((web_fails w f = true /\ exists err, tail = supervision_events err) \/
     (web_fails w f = false /\ tail = [])).
Proof.
  unfold web_fails.
  destruct (net_Listen_ans w "tcp" (listen f)) as [l|err] eqn:Hl.
  - destruct (http_Serve_ans w l) as [err|] eqn:Hs.
    + pose proof (runWebServer_serve_failure w f l err Hl Hs) as Hr.
      rewrite (webGoroutine_failure w f _ err Hr), Hr.
      eexists. split; [reflexivity|]. left. split; [reflexivity|].
      exists err. reflexivity.
    + exists []. split; [|right; split; reflexivity].
      unfold webGoroutine. rewrite (runWebServer_bound w f l Hl).
      unfold http_Serve, result. simpl. rewrite Hs. simpl.
      rewrite app_nil_r. reflexivity.
  - pose proof (runWebServer_bind_failure w f err Hl) as Hr.
    rewrite (webGoroutine_failure w f _ _ Hr), Hr.
    eexists. split; [reflexivity|]. left. split; [reflexivity|].
    eexists. reflexivity.
Qed.

Lemma runWebServer_never_exits (w : World) (f : Flags) :
  never exits_process (trace (runWebServer w f)).
Proof.
  rewrite runWebServer_trace.
  apply never_app; [apply listen_events_never_exit|].
  destruct (net_Listen_ans w "tcp" (listen f)).
  - apply never_app; [apply autoOpenExplorer_never_exits|repeat constructor].
  - repeat constructor.
Qed.

(** X3.  The web goroutine never finishes quietly: it ends in [os.Exit(1)]
    when the bind fails or [http.Serve] returns, and stays in [http.Serve]
    otherwise.  It makes an exit call only in the first case, and then
    exactly one. *)
Theorem web_goroutine_exits_only_on_failure (w : World) (f : Flags) :
  result (webGoroutine w f) = (if web_fails w f then Exit 1 else Hang) /\
  count exits_process (trace (webGoroutine w f)) =
    (if web_fails w f then 1 else 0)%nat.
Proof.
  split; [apply webGoroutine_result|].
  destruct (webGoroutine_trace w f) as (tail & Ht & [[Hf [err Htail]]|[Hf Htail]]);
    rewrite Ht, Hf, Htail, count_app,
      (never_count _ _ (runWebServer_never_exits w f)); reflexivity.
Qed.

Lemma autoOpenExplorer_kinds (w : World) (f : Flags) :
  never registers_route (trace (autoOpenExplorer w f)) /\
  never binds_socket (trace (autoOpenExplorer w f)) /\
  never serves_http (trace (autoOpenExplorer w f)) /\
  never mutates_password (trace (autoOpenExplorer w f)) /\
  never migrates_config (trace (autoOpenExplorer w f)) /\
  never writes_env (trace (autoOpenExplorer w f)) /\
  never applies_global_setting (trace (autoOpenExplorer w f)) /\
  never runs_update_loop (trace (autoOpenExplorer w f)).
Proof.
  rewrite autoOpenExplorer_trace. unfold convenience_events, docker_hint.
  destruct (snd (config_GetConfigCached_ans w));
    [destruct (util_IsRunInDocker_ans w);
     [|destruct (net_ResolveTCPAddr_ans w "tcp" (listen f))]|];
    repeat split; unfold never; repeat constructor.
Qed.

(** X4.  When [net.Listen] fails, the goroutine does not retry the bind,
    does not load the configuration, does not open a browser and never
    calls [http.Serve]; the ten routes registered before the bind stay
    registered, and what it logs is the text [util.LogStr] made of the
    bind error. *)
Theorem bind_failure_stops_web_service (w : World) (f : Flags) (err : error) :
  net_Listen_ans w "tcp" (listen f) = inr err ->
  count binds_socket (trace (webGoroutine w f)) = 1%nat /\
  never loads_config (trace (webGoroutine w f)) /\
  never opens_browser (trace (webGoroutine w f)) /\
  never serves_http (trace (webGoroutine w f)) /\
  count registers_route (trace (webGoroutine w f)) = 10%nat /\
  In (log_Println_ev
        (util_LogStr_ans w "监听端口发生异常, 请检查端口是否被占用! %s" [Error err]))
     (trace (webGoroutine w f)).
Proof.
  intros Hl.
  pose proof (runWebServer_bind_failure w f err Hl) as Hr.
  rewrite (webGoroutine_failure w f _ _ Hr). unfold trace, fst.
  unfold listen_events, route_events. simpl.
  repeat split; solve [unfold never; repeat constructor | in_list].
Qed.

(** X4, witness: the port is bound by another process. *)
Lemma bind_failure_stops_web_service_witness :
  net_Listen_ans busyPortWorld "tcp" (listen sampleFlags)
  = inr (errors_New "bind: address already in use") /\
  never serves_http (trace (webGoroutine busyPortWorld sampleFlags)).
Proof.
  split; [reflexivity|].
  apply (bind_failure_stops_web_service busyPortWorld sampleFlags
           (errors_New "bind: address already in use")).
  reflexivity.
Defined.

(** ** The route table *)

Lemma registered_patterns_app (t1 t2 : list event) :
  registered_patterns (t1 ++ t2) = registered_patterns t1 ++ registered_patterns t2.
Proof.
  induction t1 as [|e t1 IH]; simpl; [reflexivity|].
  destruct e; simpl; rewrite IH; reflexivity.
Qed.

Lemma open_patterns_app (t1 t2 : list event) :
  open_patterns (t1 ++ t2) = open_patterns t1 ++ open_patterns t2.
Proof.
  induction t1 as [|e t1 IH]; simpl; [reflexivity|].
  destruct e as [| | | | | | | | | | | | | | | | | |pattern []| | | | | | |];
    simpl; rewrite IH; reflexivity.
Qed.

Lemma no_route_no_pattern (t : list event) :
  never registers_route t ->
  registered_patterns t = [] /\ open_patterns t = [].
Proof.
  unfold never. induction 1 as [|e t He _ [IH1 IH2]]; simpl; [split; reflexivity|].
  destruct e; simpl in *; try discriminate; split; assumption.
Qed.

Lemma never_afterb_quiet (p q : event -> bool) (t : list event) :
  never p t -> never_afterb p q t = true.
Proof.
  unfold never. induction 1 as [|e t He Ht IH]; simpl; [reflexivity|].
  rewrite IH, (never_existsb p t Ht). destruct (q e); reflexivity.
Qed.

Lemma never_afterb_app (p q : event -> bool) (t1 t2 : list event) :
  never p t2 -> never_afterb p q t1 = true -> never_afterb p q (t1 ++ t2) = true.
Proof.
  intros H2. induction t1 as [|e t1 IH]; simpl; intros H1.
  - apply never_afterb_quiet. exact H2.
  - apply andb_true_iff in H1. destruct H1 as [He H1].
    rewrite (IH H1), existsb_app, (never_existsb p t2 H2), orb_false_r, He.
    reflexivity.
Qed.

(** X5.  Whatever the world answers, also when the bind fails,
    [runWebServer] registers the same ten patterns, no pattern twice (so
    that no [http.HandleFunc] meets a pattern already registered), all of
    them before it calls [net.Listen]; the patterns behind
    [web.AuthAssert] are the static files, the icon and the two login
    pages, and the other six are behind [web.Auth]. *)
Theorem route_table_registered (w : World) (f : Flags) :
  registered_patterns (trace (runWebServer w f)) =
    ["/static/"; "/favicon.ico"; "/login"; "/loginFunc"; "/"; "/save";
     "/logs"; "/clearLog"; "/webhookTest"; "/logout"] /\
  NoDup (registered_patterns (trace (runWebServer w f))) /\
  open_patterns (trace (runWebServer w f)) =
    ["/static/"; "/favicon.ico"; "/login"; "/loginFunc"] /\
  never_after registers_route binds_socket (trace (runWebServer w f)).
Proof.
  assert (Hrest : never registers_route
            match net_Listen_ans w "tcp" (listen f) with
            | inr err =>
                [util_LogStr_ev "监听端口发生异常, 请检查端口是否被占用! %s" [Error err]]
            | inl l => trace (autoOpenExplorer w f) ++ [http_Serve_ev l]
            end).
  { destruct (net_Listen_ans w "tcp" (listen f)).
    - apply never_app; [apply autoOpenExplorer_kinds|repeat constructor].
    - repeat constructor. }
  destruct (no_route_no_pattern _ Hrest) as [Hp Ho].
  assert (Hpat : registered_patterns (trace (runWebServer w f)) =
                 ["/static/"; "/favicon.ico"; "/login"; "/loginFunc"; "/"; "/save";
                  "/logs"; "/clearLog"; "/webhookTest"; "/logout"]).
  { rewrite runWebServer_trace, registered_patterns_app, Hp. reflexivity. }
  split; [exact Hpat|]. split; [|split].
  - rewrite Hpat.
    repeat (constructor; [simpl; intuition discriminate|]). constructor.
  - rewrite runWebServer_trace, open_patterns_app, Ho. reflexivity.
  - apply never_afterb_sound. rewrite runWebServer_trace.
    apply never_afterb_app; [exact Hrest|reflexivity].
Qed.

(** ** The convenience action *)

Lemma prefix_append (s t : string) : String.prefix s (String.append s t) = true.
Proof.
  induction s as [|a s IH]; simpl.
  - destruct t; reflexivity.
  - destruct (Ascii.ascii_dec a a) as [_|Hn]; [exact IH|contradiction].
Qed.

(** X6.  [autoOpenExplorer] opens a browser exactly when no configuration
    is found, the process is not in Docker and the listen address
    resolves, and then once; it logs exactly when no configuration is
    found and the process is in Docker, and then once.  Every URL it opens
    starts with ["http://"]. *)
Theorem browser_opened_iff (w : World) (f : Flags) :
  count opens_browser (trace (autoOpenExplorer w f)) =
    (if wants_browser w f then 1 else 0)%nat /\
  count writes_log (trace (autoOpenExplorer w f)) =
    (if wants_docker_hint w then 1 else 0)%nat /\
  forall url,
    In (go_util_OpenExplorer_ev url) (trace (autoOpenExplorer w f)) ->
    String.prefix "http://" url = true.
Proof.
  rewrite autoOpenExplorer_trace.
  unfold wants_browser, wants_docker_hint, resolves, convenience_events,
    docker_hint, browser_url, Sprintf_s, Sprintf_d.
  destruct (snd (config_GetConfigCached_ans w)).
  2:{ repeat split. intros url [H|[]]. discriminate H. }
  destruct (util_IsRunInDocker_ans w).
  { repeat split. intros url [H|[H|[H|[]]]]; discriminate H. }
  destruct (net_ResolveTCPAddr_ans w "tcp" (listen f)) as [addr|err].
  2:{ repeat split. intros url [H|[H|[H|[]]]]; discriminate H. }
  repeat split.
  intros url [H|[H|[H|[H|[]]]]]; try discriminate H.
  injection H as <-. destruct (IP_IsGlobalUnicast addr).
  - exact (prefix_append "http://" (TCPAddr_String addr)).
  - exact (prefix_append "http://"
             (String.append "127.0.0.1:" (strconv_Itoa (Port addr)))).
Qed.

(** ** The update period *)

Lemma int64_wrap_small (z : Z) :
  - 2 ^ 63 <= z < 2 ^ 63 -> int64_wrap z = z.
Proof. intros Hz. unfold int64_wrap. rewrite Z.mod_small; lia. Qed.

Lemma int64_wrap_over (z : Z) :
  2 ^ 63 <= z < 2 ^ 64 -> int64_wrap z = z - 2 ^ 64.
Proof.
  intros Hz. unfold int64_wrap.
  replace (z + 2 ^ 63) with ((z - 2 ^ 63) + 1 * 2 ^ 64) by lia.
  rewrite Z.mod_add by lia. rewrite Z.mod_small; lia.
Qed.

Lemma service_mode_update_loop (w : World) (f : Flags) :
  serves w f = true ->
  util_WaitInternet_returns w = true ->
  In (dns_RunTimer_ev (Duration_mul (time_Duration (every f)) time_Second))
     (trace (main w f)) /\
  count runs_update_loop (trace (main w f)) = 1%nat.
Proof.
  intros Hs Hw. rewrite (serves_service w f Hs). unfold trace, fst. split.
  - unfold service_events. rewrite Hw. in_phases.
  - destruct (validation_events_quiet w f) as (_ & _ & _ & _ & _ & _ & _ & _ & H1 & _).
    destruct (signal_events_quiet w f) as (_ & _ & _ & _ & _ & H2 & _).
    rewrite !count_app, (never_count _ _ H1), (never_count _ _ H2).
    unfold service_events. rewrite Hw. phase_cases; reflexivity.
Qed.

(** X7.  In the service mode, once the gate has returned, [main] enters
    the update loop exactly once.  For [-f] of at most 9223372036 seconds
    in absolute value the period it hands to [dns.RunTimer] is [-f] seconds
    in nanoseconds; zero and negative values are handed on as they are. *)
Theorem update_period_exact (w : World) (f : Flags) :
  serves w f = true ->
  util_WaitInternet_returns w = true ->
  - 9223372036 <= every f <= 9223372036 ->
  In (dns_RunTimer_ev (every f * 1000000000)) (trace (main w f)) /\
  count runs_update_loop (trace (main w f)) = 1%nat.
Proof.
  intros Hs Hw Hr.
  assert (Hd : Duration_mul (time_Duration (every f)) time_Second
               = every f * 1000000000).
  { unfold Duration_mul, time_Duration, time_Second, time_Nanosecond.
    rewrite (int64_wrap_small (every f)) by lia.
    rewrite int64_wrap_small by lia. lia. }
  rewrite <- Hd. apply service_mode_update_loop; assumption.
Qed.

(** X7, witness: the default [-f 300]. *)
Lemma update_period_exact_witness :
  serves homeWorld sampleFlags = true /\
  In (dns_RunTimer_ev (300 * 1000000000)) (trace (main homeWorld sampleFlags)).
Proof.
  split; [reflexivity|].
  apply (update_period_exact homeWorld sampleFlags).
  - reflexivity.
  - reflexivity.
  - simpl. lia.
Defined.

(** X8.  [main] does not bound [-f]: for [-f] from 9223372037 to
    18446744073 seconds the [int64] product with [time.Second] wraps
    around, and the period handed to [dns.RunTimer] is negative. *)
Theorem update_period_overflow (w : World) (f : Flags) :
  serves w f = true ->
  util_WaitInternet_returns w = true ->
  9223372037 <= every f <= 18446744073 ->
  In (dns_RunTimer_ev (every f * 1000000000 - 2 ^ 64)) (trace (main w f)) /\
  every f * 1000000000 - 2 ^ 64 < 0.
Proof.
  intros Hs Hw Hr.
  assert (Hd : Duration_mul (time_Duration (every f)) time_Second
               = every f * 1000000000 - 2 ^ 64).
  { unfold Duration_mul, time_Duration, time_Second, time_Nanosecond.
    rewrite (int64_wrap_small (every f)) by lia.
    rewrite int64_wrap_over by lia. lia. }
  rewrite <- Hd. split; [|rewrite Hd; lia].
  apply service_mode_update_loop; assumption.
Qed.

(** X8, witness: [-f 9223372037]. *)
Lemma update_period_overflow_witness :
  serves homeWorld (with_every 9223372037 sampleFlags) = true /\
  In (dns_RunTimer_ev (-9223372036709551616))
     (trace (main homeWorld (with_every 9223372037 sampleFlags))).
Proof.
  split; [reflexivity|].
  apply (update_period_overflow homeWorld (with_every 9223372037 sampleFlags)).
  - reflexivity.
  - reflexivity.
  - simpl. lia.
Defined.

(** ** Order and frame of the bootstrap *)

Lemma path_signal_before_load (w : World) (f : Flags) :
  configFilePath f <> "" ->
  only_after (writes_env_key ConfigFilePathENV) loads_config (trace (main w f)).
Proof.
  intros Hc. apply String.eqb_neq in Hc. apply only_afterb_sound.
  main_trace_cases w f; unfold signal_events; rewrite ?Hc;
    phase_cases; reflexivity.
Qed.

(** X9.  [main] loads the cached configuration at most once, and only
    after it has written the version signal and, for a non-empty [-c], the
    config-path signal; the password reset and the migration come only
    after the load. *)
Theorem config_loaded_after_path_signals (w : World) (f : Flags) :
  Forall (fun k => only_after (writes_env_key k) loads_config (trace (main w f)))
         (path_signals f) /\
  only_after loads_config uses_config (trace (main w f)) /\
  (count loads_config (trace (main w f)) <= 1)%nat.
Proof.
  split; [|split].
  - unfold path_signals.
    destruct (String.eqb_spec (configFilePath f) "") as [Hc|Hc]; simpl.
    + constructor; [|constructor]. apply only_afterb_sound.
      main_trace_cases w f; phase_cases; reflexivity.
    + constructor; [|constructor; [|constructor]].
      * apply only_afterb_sound.
        main_trace_cases w f; phase_cases; reflexivity.
      * apply path_signal_before_load. exact Hc.
  - apply only_afterb_sound. main_trace_cases w f; phase_cases; reflexivity.
  - main_trace_cases w f; phase_cases; unfold count; simpl; lia.
Qed.

(** X10.  [main] reads of [filepath.Abs] the path only: whether an error
    comes with it makes no difference to the run. *)
Theorem filepath_abs_error_dropped (w : World) (f : Flags)
    (g : string -> string * option error) :
  (forall p, fst (g p) = fst (filepath_Abs_ans w p)) ->
  main (with_filepath_Abs g w) f = main w f.
Proof.
  intros Hg.
  destruct (versionFlag f) eqn:Hv.
  { rewrite !main_version by exact Hv. reflexivity. }
  destruct (net_ResolveTCPAddr_ans w "tcp" (listen f)) as [addr|err] eqn:Ha.
  2:{ rewrite (main_invalid_listen w f err Hv Ha).
      rewrite (main_invalid_listen (with_filepath_Abs g w) f err Hv Ha).
      reflexivity. }
  assert (Hsig : signal_events (with_filepath_Abs g w) f = signal_events w f).
  { unfold signal_events. simpl. rewrite Hg. reflexivity. }
  destruct (String.eqb_spec (newPassword f) "") as [Hp|Hp].
  { rewrite (main_service w f addr Hv Ha Hp).
    rewrite (main_service (with_filepath_Abs g w) f addr Hv Ha Hp).
    rewrite Hsig. reflexivity. }
  destruct (snd (config_GetConfigCached_ans w)) as [err|] eqn:Hc.
  - rewrite (main_reset_missing w f addr err Hv Ha Hp Hc).
    rewrite (main_reset_missing (with_filepath_Abs g w) f addr err Hv Ha Hp Hc).
    rewrite Hsig. reflexivity.
  - rewrite (main_reset_found w f addr Hv Ha Hp Hc).
    rewrite (main_reset_found (with_filepath_Abs g w) f addr Hv Ha Hp Hc).
    rewrite Hsig. reflexivity.
Qed.

(** X10, witness: [filepath.Abs] gives the path and an error. *)
Lemma filepath_abs_error_dropped_witness :
  main (with_filepath_Abs (fun p => (p, Some (errors_New "getwd: no such file")))
          homeWorld) sampleFlags
  = main homeWorld sampleFlags.
Proof.
  apply (filepath_abs_error_dropped homeWorld sampleFlags
           (fun p => (p, Some (errors_New "getwd: no such file")))).
  intros p. reflexivity.
Defined.

Lemma webGoroutine_kinds (w : World) (f : Flags) :
  never mutates_password (trace (webGoroutine w f)) /\
  never migrates_config (trace (webGoroutine w f)) /\
  never writes_env (trace (webGoroutine w f)) /\
  never applies_global_setting (trace (webGoroutine w f)) /\
  never runs_update_loop (trace (webGoroutine w f)).
Proof.
  destruct (autoOpenExplorer_kinds w f) as (_ & _ & _ & A1 & A2 & A3 & A4 & A5).
  destruct (webGoroutine_trace w f) as (tail & Ht & Htail).
  rewrite Ht, runWebServer_trace.
  assert (Hq : forall p,
             never p (listen_events f) ->
             never p (trace (autoOpenExplorer w f)) ->
             (forall l, p (http_Serve_ev l) = false) ->
             (forall a b, p (util_LogStr_ev a b) = false) ->
             (forall err, never p (supervision_events err)) ->
             never p
               ((listen_events f ++
                 match net_Listen_ans w "tcp" (listen f) with
                 | inr err =>
                     [util_LogStr_ev
                        "监听端口发生异常, 请检查端口是否被占用! %s" [Error err]]
                 | inl l => trace (autoOpenExplorer w f) ++ [http_Serve_ev l]
                 end) ++ tail)).
  { intros p H1 H2 H3 H4 H5.
    apply never_app; [apply never_app; [exact H1|]|].
    - destruct (net_Listen_ans w "tcp" (listen f)).
      + apply never_app; [exact H2|]. constructor; [apply H3|constructor].
      + constructor; [apply H4|constructor].
    - destruct Htail as [[_ [err ->]]|[_ ->]]; [apply H5|constructor]. }
  repeat split; apply Hq; try assumption; try reflexivity;
    try (intros; never_by_cases); never_by_cases.
Qed.

(** ** C4: the supervision of the web service *)

(** C4, counterexample.  The port is bound by another process and the
    network is down.  The web goroutine logs, sleeps and ends the process
    with status 1, while [main] is still waiting in the connectivity gate:
    no thread of the process ever enters the update loop, so there is no
    update loop to continue during the grace period. *)
Lemma web_failure_before_gate_opens :
  In go_webServer_ev (trace (main offlineWorld sampleFlags)) /\
  web_service_fails busyPortWorld sampleFlags /\
  exit_status (process offlineWorld busyPortWorld sampleFlags) = Some 1 /\
  never runs_update_loop (events (process offlineWorld busyPortWorld sampleFlags)) /\
  ~ update_loop_runs offlineWorld busyPortWorld sampleFlags.
Proof.
  split; [in_list|].
  split; [left; eexists; reflexivity|].
  split; [reflexivity|].
  split; [unfold never; simpl; repeat constructor|].
  unfold update_loop_runs. simpl. discriminate.
Qed.

(** C4, amended.  For every failure of [net.Listen] or [http.Serve] in a
    process that forked the web goroutine: [runWebServer] returns the error
    to the goroutine without any exit call of its own; the goroutine then
    logs the error, sleeps [time.Minute] (60 s) and calls [os.Exit(1)], in
    this order and with nothing in between, and the process exits with
    status 1.  The main goroutine does not depend on the answers given to
    the web goroutine and neither returns nor exits meanwhile: it is in the
    update loop when the connectivity gate has returned, and is still
    waiting in the gate, with no update loop in the whole process, when it
    has not. *)
Theorem web_failure_supervised (wm ww : World) (f : Flags) :
  In go_webServer_ev (trace (main wm f)) ->
  web_service_fails ww f ->
  exists t err,
    runWebServer ww f = (t, Done (Some err)) /\
    never exits_process t /\
    web_thread (process wm ww f) = Some (t ++ supervision_events err, Exit 1) /\
    time_Minute = 60 * 1000000000 /\
    main_thread (process wm ww f) =
      (validation_events wm f ++ signal_events wm f ++ switch_events f ++
       service_events wm f, Hang) /\
    exit_status (process wm ww f) = Some 1 /\
    (if util_WaitInternet_returns wm
     then In (dns_RunTimer_ev (Duration_mul (time_Duration (every f)) time_Second))
             (trace (main_thread (process wm ww f))) /\
          update_loop_runs wm ww f
     else In (util_WaitInternet_ev (dns_Addresses wm))
             (trace (main_thread (process wm ww f))) /\
          never runs_update_loop (events (process wm ww f))).
Proof.
  intros Hfork Hfail.
  destruct (runWebServer_returns_failure ww f Hfail) as (t & err & Hrun & Hquiet).
  exists t, err.
  pose proof (webGoroutine_failure ww f t err Hrun) as Hweb.
  pose proof (process_with_fork wm ww f Hfork) as Hthread.
  pose proof (fork_in_service_mode wm f Hfork) as Hmain.
  pose proof (webGoroutine_kinds ww f) as (_ & _ & _ & _ & Hwebloop).
  fold (supervision_events err) in Hweb.
  split; [exact Hrun|]. split; [exact Hquiet|].
  split; [rewrite Hthread, Hweb; reflexivity|].
  split; [reflexivity|]. split; [exact Hmain|].
  split.
  { unfold exit_status. rewrite Hthread, Hweb.
    change (main_thread (process wm ww f)) with (main wm f).
    rewrite Hmain. reflexivity. }
  assert (Hev : events (process wm ww f)
                = trace (main wm f) ++ trace (webGoroutine ww f)).
  { unfold events. rewrite Hthread. reflexivity. }
  change (main_thread (process wm ww f)) with (main wm f).
  destruct (validation_events_quiet wm f) as (_ & _ & _ & _ & _ & _ & _ & _ & H1 & _).
  destruct (signal_events_quiet wm f) as (_ & _ & _ & _ & _ & H2 & _).
  destruct (util_WaitInternet_returns wm) eqn:Hw.
  - assert (Hin : In (dns_RunTimer_ev
                        (Duration_mul (time_Duration (every f)) time_Second))
                     (trace (main wm f))).
    { rewrite Hmain. unfold trace, fst, service_events. rewrite Hw. in_phases. }
    split; [exact Hin|].
    unfold update_loop_runs. rewrite Hev. apply existsb_exists.
    eexists. split; [apply in_or_app; left; exact Hin|reflexivity].
  - split.
    + rewrite Hmain. unfold trace, fst, service_events. rewrite Hw. in_phases.
    + rewrite Hev. apply never_app; [|exact Hwebloop].
      rewrite Hmain. unfold trace, fst.
      do 2 (apply never_app; [assumption|]).
      unfold service_events. rewrite Hw. never_by_cases.
Qed.

(** C4, witness: the default flags, the port being bound by another
    process. *)
Lemma web_failure_supervised_witness :
  web_service_fails busyPortWorld sampleFlags /\
  exit_status (process homeWorld busyPortWorld sampleFlags) = Some 1 /\
  update_loop_runs homeWorld busyPortWorld sampleFlags.
Proof.
  assert (Hfail : web_service_fails busyPortWorld sampleFlags).
  { left. eexists. reflexivity. }
  assert (Hfork : In go_webServer_ev (trace (main homeWorld sampleFlags))).
  { in_list. }
  split; [exact Hfail|].
  destruct (web_failure_supervised homeWorld busyPortWorld sampleFlags Hfork Hfail)
    as (t & err & _ & _ & _ & _ & _ & Hx & Hloop).
  split; [exact Hx|]. exact (proj2 Hloop).
Defined.

(** ** The password, the signals and the switches *)

Lemma service_phases_no_password (w : World) (f : Flags) :
  never mutates_password (switch_events f) /\
  never mutates_password (service_events w f).
Proof. split; never_by_cases. Qed.

(** X11.  Without [-resetPassword] no thread of the process calls
    [ResetPassword], whatever the other flags and the world. *)
Theorem password_untouched_without_flag (wm ww : World) (f : Flags) :
  newPassword f = "" ->
  never mutates_password (events (process wm ww f)).
Proof.
  intros Hp. unfold events. apply never_app.
  - change (main_thread (process wm ww f)) with (main wm f).
    destruct (validation_events_quiet wm f) as (_ & _ & _ & _ & _ & H1 & _).
    destruct (signal_events_quiet wm f) as (_ & _ & H2 & _).
    destruct (service_phases_no_password wm f) as [H3 H4].
    destruct (main_modes wm f) as [H|[[err H]|[[Hn _]|[_ H]]]];
      [| | contradiction|]; rewrite H; unfold trace, fst.
    + repeat constructor.
    + apply never_app; [exact H1|repeat constructor].
    + do 3 (apply never_app; [assumption|]). exact H4.
  - destruct (web_thread (process wm ww f)) as [t|] eqn:Hw; [|constructor].
    unfold process in Hw. cbn [web_thread] in Hw.
    destruct (existsb is_go_webServer (trace (main wm f))); [|discriminate].
    injection Hw as <-. apply webGoroutine_kinds.
Qed.

(** X11, witness: the default flags. *)
Lemma password_untouched_without_flag_witness :
  newPassword sampleFlags = "" /\
  never mutates_password (events (process homeWorld closedWorld sampleFlags)).
Proof.
  split; [reflexivity|].
  apply (password_untouched_without_flag homeWorld closedWorld sampleFlags).
  reflexivity.
Defined.

(** X12.  Once [main] has forked the web goroutine, no thread writes an
    environment signal or applies a process-wide setting: [main] makes no
    such call after its [go] statement, and the web goroutine makes none at
    all. *)
Theorem signals_frozen_after_fork (wm ww : World) (f : Flags) :
  never_after writes_env is_go_webServer (trace (main wm f)) /\
  never_after applies_global_setting is_go_webServer (trace (main wm f)) /\
  never writes_env (trace (webGoroutine ww f)) /\
  never applies_global_setting (trace (webGoroutine ww f)).
Proof.
  split; [|split; [|split]].
  - apply never_afterb_sound. main_trace_cases wm f; phase_cases; reflexivity.
  - apply never_afterb_sound. main_trace_cases wm f; phase_cases; reflexivity.
  - apply webGoroutine_kinds.
  - apply webGoroutine_kinds.
Qed.

(** X13.  The certificate switch is applied exactly when [main] is in its
    service mode with [-skipVerify], the DNS override exactly when it is
    there with a non-empty [-dns]; each at most once, and before [main]
    forks the web service, initialises the backup DNS, enters the
    connectivity gate or the update loop. *)
Theorem switches_before_online (w : World) (f : Flags) :
  count sets_skip_verify (trace (main w f)) =
    (if serves w f && skipVerify f then 1 else 0)%nat /\
  count sets_dns (trace (main w f)) =
    (if serves w f && negb (customDNS f =? "")%string then 1 else 0)%nat /\
  (if skipVerify f
   then only_after sets_skip_verify goes_online (trace (main w f))
   else True) /\
  (if (customDNS f =? "")%string
   then True
   else only_after sets_dns goes_online (trace (main w f))).
Proof.
  assert (Hcount : forall p,
            never p (validation_events w f) -> never p (signal_events w f) ->
            never p (service_events w f) ->
            p (fmt_Println_ev version) = false ->
            (forall a b, p (log_Fatalf_ev a b) = false) ->
            p config_GetConfigCached_ev = false ->
            (forall a b, p (conf_ResetPassword_ev a b) = false) ->
            (forall a b, p (util_Log_ev a b) = false) ->
            count p (trace (main w f)) =
              (if serves w f then count p (switch_events f) else 0)%nat).
  { intros p H1 H2 H3 H4 H5 H6 H7 H8.
    destruct (serves w f) eqn:Hs.
    - rewrite (serves_service w f Hs). unfold trace, fst.
      rewrite !count_app, (never_count _ _ H1), (never_count _ _ H2),
        (never_count _ _ H3). lia.
    - destruct (main_modes w f) as [H|[[err H]|[[_ [e [H He]]]|[_ H]]]].
      + rewrite H. unfold trace, fst, count. simpl. rewrite H4. reflexivity.
      + rewrite H. unfold trace, fst.
        rewrite count_app, (never_count _ _ H1). unfold count. simpl.
        rewrite H5. reflexivity.
      + rewrite H. unfold trace, fst.
        rewrite !count_app, (never_count _ _ H1), (never_count _ _ H2).
        unfold count. simpl. rewrite H6.
        destruct He as [->| ->]; [rewrite H7|rewrite H8]; reflexivity.
      + destruct (not_serves_ends_early w f Hs) as [t [Ht|Ht]];
          rewrite Ht in H; discriminate H. }
  split; [|split; [|split]].
  - rewrite Hcount by solve [reflexivity | never_by_cases].
    destruct (serves w f); [|reflexivity]. simpl. phase_cases; reflexivity.
  - rewrite Hcount by solve [reflexivity | never_by_cases].
    destruct (serves w f); [|reflexivity]. unfold switch_events.
    destruct (customDNS f =? "")%string; simpl; phase_cases; reflexivity.
  - destruct (skipVerify f) eqn:Hk; [|exact I].
    apply only_afterb_sound.
    main_trace_cases w f; unfold switch_events; rewrite ?Hk;
      phase_cases; reflexivity.
  - destruct (customDNS f =? "")%string eqn:Hd; [exact I|].
    apply only_afterb_sound.
    main_trace_cases w f; unfold switch_events; rewrite ?Hd;
      phase_cases; reflexivity.
Qed.

(** ** The settings left by the bootstrap *)

(** X14.  When [main] is in its service mode, the settings its calls leave
    behind are: the version signal set to the version, the cache-times
    signal set to the decimal form of [-cacheTimes], the config-path signal
    set to what [filepath.Abs] gave for a non-empty [-c] and left as found
    for an empty one; the certificate switch set with [-skipVerify] and the
    DNS override set to a non-empty [-dns], each left as found otherwise. *)
Theorem bootstrap_settings (w : World) (f : Flags) (g : Globals) :
  serves w f = true ->
  insecureSkipVerify (globals_after (trace (main w f)) g)
  = insecureSkipVerify (bootstrap_globals w f g) /\
  customResolver (globals_after (trace (main w f)) g)
  = customResolver (bootstrap_globals w f g) /\
  forall k, environ (globals_after (trace (main w f)) g) k
            = environ (bootstrap_globals w f g) k.
Proof.
  intros Hs. rewrite (serves_service w f Hs).
  unfold trace, fst, globals_after, bootstrap_globals.
  phase_cases; simpl; (split; [reflexivity|split; [reflexivity|]]);
    intros k; destruct k; reflexivity.
Qed.

(** X14, witness: the default flags. *)
Lemma bootstrap_settings_witness :
  serves homeWorld sampleFlags = true /\
  environ (globals_after (trace (main homeWorld sampleFlags)) initialGlobals)
          IPCacheTimesENV = Some "5".
Proof.
  split; [reflexivity|].
  destruct (bootstrap_settings homeWorld sampleFlags initialGlobals eq_refl)
    as (_ & _ & He).
  rewrite He. reflexivity.
Defined.


(** ** The cache-times signal *)

Lemma strconv_Itoa_inj (n m : Z) : strconv_Itoa n = strconv_Itoa m -> n = m.
Proof.
  unfold strconv_Itoa. intros H.
  assert (Hnn : forall z, Z.to_int z <> Decimal.Pos Decimal.Nil /\
                          Z.to_int z <> Decimal.Neg Decimal.Nil).
  { intros [|p|p]; simpl; split; try discriminate;
      intros Heq; injection Heq as Heq;
      exact (DecimalPos.Unsigned.to_uint_nonnil p Heq). }
  apply DecimalZ.to_int_inj.
  apply (f_equal NilZero.int_of_string) in H.
  destruct (Hnn n) as [H1 H2]. destruct (Hnn m) as [H3 H4].
  rewrite !NilZero.isi in H by assumption.
  injection H as H. exact H.
Qed.

(** X16.  The cache-times signal that the bootstrap leaves in the
    environment determines [-cacheTimes]: two runs in the service mode
    that leave the same signal were given the same value.  Negative values
    are written with their sign; [main] rejects none. *)
Theorem cache_times_signal_determines_value
    (w1 w2 : World) (f1 f2 : Flags) (g1 g2 : Globals) :
  serves w1 f1 = true ->
  serves w2 f2 = true ->
  environ (globals_after (trace (main w1 f1)) g1) IPCacheTimesENV
  = environ (globals_after (trace (main w2 f2)) g2) IPCacheTimesENV ->
  ipCacheTimes f1 = ipCacheTimes f2.
Proof.
  intros Hs1 Hs2.
  assert (Hval : forall w f g,
            serves w f = true ->
            environ (globals_after (trace (main w f)) g) IPCacheTimesENV
            = Some (strconv_Itoa (ipCacheTimes f))).
  { intros w f g Hs. rewrite (serves_service w f Hs).
    unfold trace, fst, globals_after. phase_cases; reflexivity. }
  rewrite (Hval w1 f1 g1 Hs1), (Hval w2 f2 g2 Hs2).
  intros H. injection H as H. apply strconv_Itoa_inj. exact H.
Qed.

(** X16, witness: twice the default flags, on two hosts. *)
Lemma cache_times_signal_determines_value_witness :
  ipCacheTimes sampleFlags = ipCacheTimes (with_every 60 sampleFlags).
Proof.
  apply (cache_times_signal_determines_value homeWorld freshWorld
           sampleFlags (with_every 60 sampleFlags) initialGlobals initialGlobals).
  - reflexivity.
  - reflexivity.
  - reflexivity.
Defined.

(** ** Bind and serve *)

Lemma webGoroutine_trace_cases (w : World) (f : Flags) :
  trace (webGoroutine w f) =
    listen_events f ++
    match net_Listen_ans w "tcp" (listen f) with
    | inr err =>
        util_LogStr_ev "监听端口发生异常, 请检查端口是否被占用! %s" [Error err] ::
        supervision_events
          (errors_New
             (util_LogStr_ans w "监听端口发生异常, 请检查端口是否被占用! %s"
                [Error err]))
    | inl l =>
        trace (autoOpenExplorer w f) ++
        http_Serve_ev l ::
        match http_Serve_ans w l with
        | Some err => supervision_events err
        | None => []
        end
    end.
Proof.
  destruct (net_Listen_ans w "tcp" (listen f)) as [l|err] eqn:Hl.
  - destruct (http_Serve_ans w l) as [err|] eqn:Hs.
    + rewrite (webGoroutine_failure w f _ err
                 (runWebServer_serve_failure w f l err Hl Hs)).
      unfold trace, fst. rewrite <- !app_assoc. reflexivity.
    + unfold webGoroutine. rewrite (runWebServer_bound w f l Hl).
      unfold http_Serve, result, trace, bind. cbn [fst snd]. rewrite Hs.
      cbn [fst]. rewrite <- ?app_assoc. reflexivity.
  - rewrite (webGoroutine_failure w f _ _ (runWebServer_bind_failure w f err Hl)).
    unfold trace, fst. rewrite <- !app_assoc. reflexivity.
Qed.

Ltac web_trace_cases w f :=
  rewrite (webGoroutine_trace_cases w f), (autoOpenExplorer_trace w f);
  unfold listen_events, route_events, convenience_events, docker_hint,
    supervision_events;
  destruct (net_Listen_ans w "tcp" (listen f)) as [?l|?err];
  [destruct (http_Serve_ans w _);
   (destruct (snd (config_GetConfigCached_ans w));
    [destruct (util_IsRunInDocker_ans w);
     [|destruct (net_ResolveTCPAddr_ans w "tcp" (listen f))]|])|].

(** X17.  The web goroutine calls [net.Listen] once, whatever happens.  It
    calls [http.Serve] exactly when the bind succeeded, once, on the
    listener the bind returned and after the bind; the configuration load
    and the browser of [autoOpenExplorer] come between the two: only after
    [net.Listen], never after [http.Serve]. *)
Theorem serve_after_bind (w : World) (f : Flags) :
  count binds_socket (trace (webGoroutine w f)) = 1%nat /\
  count serves_http (trace (webGoroutine w f)) =
    (match net_Listen_ans w "tcp" (listen f) with
     | inl _ => 1 | inr _ => 0 end)%nat /\
  (forall l, In (http_Serve_ev l) (trace (webGoroutine w f)) ->
             net_Listen_ans w "tcp" (listen f) = inl l) /\
  only_after binds_socket serves_http (trace (webGoroutine w f)) /\
  only_after binds_socket loads_config (trace (webGoroutine w f)) /\
  never_after loads_config serves_http (trace (webGoroutine w f)) /\
  never_after opens_browser serves_http (trace (webGoroutine w f)) /\
  only_after binds_socket opens_browser (trace (webGoroutine w f)).
Proof.
  split; [|split; [|split; [|split; [|split; [|split; [|split]]]]]].
  - web_trace_cases w f; reflexivity.
  - web_trace_cases w f; reflexivity.
  - intros l0. rewrite (webGoroutine_trace_cases w f), (autoOpenExplorer_trace w f).
    unfold listen_events, route_events, convenience_events, docker_hint,
      supervision_events.
    destruct (net_Listen_ans w "tcp" (listen f)) as [l|err].
    + intros Hin.
      assert (Hl : http_Serve_ev l0 = http_Serve_ev l).
      { destruct (http_Serve_ans w l);
          (destruct (snd (config_GetConfigCached_ans w));
           [destruct (util_IsRunInDocker_ans w);
            [|destruct (net_ResolveTCPAddr_ans w "tcp" (listen f))]|]);
          simpl in Hin;
          repeat (destruct Hin as [Hin|Hin]; [try discriminate Hin|]);
          try contradiction; symmetry; exact Hin. }
      injection Hl as ->. reflexivity.
    + simpl. intros Hin.
      repeat (destruct Hin as [Hin|Hin]; [discriminate Hin|]). contradiction.
  - apply only_afterb_sound. web_trace_cases w f; reflexivity.
  - apply only_afterb_sound. web_trace_cases w f; reflexivity.
  - apply never_afterb_sound. web_trace_cases w f; reflexivity.
  - apply never_afterb_sound. web_trace_cases w f; reflexivity.
  - apply only_afterb_sound. web_trace_cases w f; reflexivity.
Qed.
